(** * LAB02: FastAPI CRUD service over [data.json]

    Shallow embedding of [LAB02_Middleware_FastAPI/main.py] and proofs of
    the properties its specification states.

    Modelling decisions.
    - A Python [str] is either text that UTF-8 can encode or a string with
      a lone surrogate, which it cannot; Pydantic accepts both in a request
      body.  The records follow the Pydantic models [UserIn]/[UserOut] and
      are parametric in the type of their strings: [str] in memory,
      encoded text in the backing file.
    - The backing file [DATA_FILE] is absent, holds a document
      [{"users": [...], "next_id": n}], or is corrupt: it does not parse.
      [next_id] is optional, because [create_user] reads it with
      [db.get("next_id", 1)] and so provides for its absence.  Python
      integers are unbounded: [Z].
    - [save_db] opens the file for writing, which empties it, and then
      dumps the document with [ensure_ascii=False]: when a string of the
      document cannot be encoded the dump raises [UnicodeEncodeError] and
      leaves the cut-off file behind.  Otherwise [json.load] gives back
      what [json.dump] wrote.  A file written this way never holds an
      escaped surrogate, so the strings read from a file are text; files
      that hold other JSON than a document are outside the model.
      [writes] counts how many times the file was opened for writing.
    - Handlers run one at a time (the mutating ones hold [LOCK]); the
      interleaving of unsynchronised reads is outside this model.
    - Code runs in a state-and-exception monad: an exception raised after
      a write leaves the write in place, as in Python.  The CRUD handlers
      only touch the [Disk]; the middleware runs over the [World], which
      adds the clock.
    - FastAPI/Starlette are modelled as far as the program uses them: the
      request arrives with the route it was resolved to, handler results
      are serialised under the declared response model, [HTTPException]
      becomes a JSON error response, any other exception becomes a 500,
      and the middleware stack is built the way Starlette builds it:
      [add_middleware] (which [@app.middleware] calls) inserts at index 0
      of [user_middleware], and the stack wraps the router with that list
      taken in reverse, so the middleware registered last is the outermost
      one.
    - [request.url.path] is a field of the request of its own: Starlette
      rebuilds the URL from the [Host] header and the path of the request
      line and splits it again, so it is the path that was routed only
      when the [Host] header is a plain host name.
    - The clock of [time.perf_counter] counts hundredths of a millisecond,
      the resolution of the [X-Process-Time] header, and never goes back;
      the rounding of the floating-point duration by [:.2f] is thereby
      abstracted. *)

From Stdlib Require Import ZArith NArith String Ascii List Sorted Lia DecimalString.
From stdpp Require Import base option list sorting gmap strings.

Local Open Scope string_scope.
Local Open Scope Z_scope.

(** ** Strings *)

(** A Python [str]: text, given by its UTF-8 encoding, or a string that
    holds a lone surrogate, given by its code points. *)
Inductive str :=
| Utf8 (text : string)
| Lone (code_points : list N).

(** [s.encode("utf-8")]: [None] stands for [UnicodeEncodeError]. *)
Definition encode (s : str) : option string :=
  match s with
  | Utf8 t => Some t
  | Lone _ => None
  end.

Definition decode (t : string) : str := Utf8 t.

(** ** Pydantic models *)

Record UserIn (T : Type) := { username : T; email : T; age : Z }.
Arguments username {T} _.
Arguments email {T} _.
Arguments age {T} _.

(** [class UserOut(UserIn): id: int].  A stored record
    [{"id": new_id, **user.dict()}] has the same shape. *)
Record UserOut (T : Type) := { id : Z; fields : UserIn T }.
Arguments id {T} _.
Arguments fields {T} _.

(** ** The store document and the world *)

Record Document (T : Type) := { users : list (UserOut T); next_id : option Z }.
Arguments users {T} _.
Arguments next_id {T} _.

(** [{"users": [], "next_id": 1}] *)
Definition default_document {T : Type} : Document T :=
  {| users := []; next_id := Some 1 |}.

Definition encode_fields (u : UserIn str) : option (UserIn string) :=
  match encode (username u), encode (email u) with
  | Some n, Some e => Some {| username := n; email := e; age := age u |}
  | _, _ => None
  end.

Definition decode_fields (u : UserIn string) : UserIn str :=
  {| username := decode (username u); email := decode (email u); age := age u |}.

Definition encode_user (u : UserOut str) : option (UserOut string) :=
  match encode_fields (fields u) with
  | Some f => Some {| id := id u; fields := f |}
  | None => None
  end.

Definition decode_user (u : UserOut string) : UserOut str :=
  {| id := id u; fields := decode_fields (fields u) |}.

Definition encode_document (d : Document str) : option (Document string) :=
  match mapM encode_user (users d) with
  | Some l => Some {| users := l; next_id := next_id d |}
  | None => None
  end.

Definition decode_document (d : Document string) : Document str :=
  {| users := decode_user <$> users d; next_id := next_id d |}.

(** What [DATA_FILE] holds when it exists. *)
Inductive FileContent :=
| Corrupt
| Holds (d : Document string).

(** [data_file]: content of [DATA_FILE], [None] when the file does not exist.
    [writes]: number of times the file was opened with mode ["w"]. *)
Record Disk := { data_file : option FileContent; writes : nat }.

(** [clock], [delays]: the monotonic clock behind [time.perf_counter], in
    hundredths of a millisecond, and the time that passes after each
    reading. *)
Record World := { disk : Disk; clock : N; delays : list N }.

(** ** Exceptions and the handler monad *)

Inductive exn :=
| HTTPException (status_code : Z) (detail : string)
| FileNotFoundError
| JSONDecodeError
| UnicodeEncodeError.

Inductive outcome (A : Type) :=
| Return (a : A)
| Raise (e : exn).
Arguments Return {A} a.
Arguments Raise {A} e.

Definition M (S A : Type) : Type := S -> outcome A * S.

Definition ret {S A} (a : A) : M S A := fun s => (Return a, s).

Definition raise {S A} (e : exn) : M S A := fun s => (Raise e, s).

Definition bind {S A B} (m : M S A) (k : A -> M S B) : M S B :=
  fun s =>
    match m s with
    | (Return a, s') => k a s'
    | (Raise e, s') => (Raise e, s')
    end.

(** Code that only touches the disk, run in the world. *)
Definition on_disk {A} (m : M Disk A) : M World A :=
  fun w =>
    let '(r, d) := m (disk w) in
    (r, {| disk := d; clock := clock w; delays := delays w |}).

Declare Scope py_scope.
Delimit Scope py_scope with py.
Notation "x <- m ;; k" := (bind m (fun x => k))
  (at level 100, m at next level, right associativity) : py_scope.
Notation "m ;; k" := (bind m (fun _ => k))
  (at level 100, right associativity) : py_scope.
Local Open Scope py_scope.

(** ** File access *)

(** [open(DATA_FILE, "w")] followed by [json.dump(d, f, ensure_ascii=False,
    ...)]: the file is emptied first; a string that cannot be encoded
    stops the dump. *)
Definition write_file (d : Document str) : M Disk unit :=
  fun s =>
    match encode_document d with
    | Some t =>
        (Return tt, {| data_file := Some (Holds t); writes := S (writes s) |})
    | None =>
        (Raise UnicodeEncodeError,
         {| data_file := Some Corrupt; writes := S (writes s) |})
    end.

(** [os.path.exists(DATA_FILE)] *)
Definition exists_file : M Disk bool :=
  fun s => (Return (bool_decide (is_Some (data_file s))), s).

(** [open(DATA_FILE, "r")] followed by [json.load(f)]. *)
Definition read_file : M Disk (Document str) :=
  fun s => match data_file s with
           | Some (Holds t) => (Return (decode_document t), s)
           | Some Corrupt => (Raise JSONDecodeError, s)
           | None => (Raise FileNotFoundError, s)
           end.

Definition _ensure_db : M Disk unit :=
  present <- exists_file ;;
  if negb present then write_file default_document else ret tt.

Definition load_db : M Disk (Document str) :=
  _ensure_db ;;
  read_file.

Definition save_db (db : Document str) : M Disk unit :=
  write_file db.

(** ** CRUD handlers *)

(** [u["id"] == user_id] *)
Definition has_id {T} (user_id : Z) (u : UserOut T) : Prop := id u = user_id.

#[global] Instance has_id_dec {T} user_id (u : UserOut T) :
  Decision (has_id user_id u).
Proof. unfold has_id. apply _. Defined.

Definition not_found {A} : M Disk A :=
  raise (HTTPException 404 "User not found").

Definition list_users : M Disk (list (UserOut str)) :=
  db <- load_db ;;
  ret (users db).

(** The [for] loop returns the first record whose id matches. *)
Definition get_user (user_id : Z) : M Disk (UserOut str) :=
  db <- load_db ;;
  match list_find (has_id user_id) (users db) with
  | Some (_, u) => ret u
  | None => not_found
  end.

Definition create_user (user : UserIn str) : M Disk (UserOut str) :=
  db <- load_db ;;
  let new_id := default 1 (next_id db) in
  let rec := {| id := new_id; fields := user |} in
  let db := {| users := users db ++ [rec]; next_id := next_id db |} in
  let db := {| users := users db; next_id := Some (new_id + 1) |} in
  save_db db ;;
  ret rec.

(** [enumerate] gives the index of the first match; [db["users"][i] = updated]
    is an in-range list update. *)
Definition update_user (user_id : Z) (user : UserIn str) : M Disk (UserOut str) :=
  db <- load_db ;;
  match list_find (has_id user_id) (users db) with
  | Some (i, _) =>
      let updated := {| id := user_id; fields := user |} in
      let db := {| users := <[i := updated]> (users db); next_id := next_id db |} in
      save_db db ;;
      ret updated
  | None => not_found
  end.

(** [db["users"].pop(i)] removes the element at index [i]. *)
Definition delete_user (user_id : Z) : M Disk unit :=
  db <- load_db ;;
  match list_find (has_id user_id) (users db) with
  | Some (i, _) =>
      let db := {| users := delete i (users db); next_id := next_id db |} in
      save_db db ;;
      ret tt
  | None => not_found
  end.
(** ** HTTP requests and responses *)

#[local] Set Warnings "-register-all".

Inductive json :=
| JNull
| JBool (b : bool)
| JInt (n : Z)
| JStr (s : string)
| JArr (l : list json)
| JObj (members : list (string * json)).

Inductive Content :=
| Empty
| Json (j : json)
| Text (s : string).

(** Only the headers that the program and its middleware set are
    represented; the framing headers that the framework derives from the
    body are left out. *)
Record Response := {
  status : Z;
  resp_headers : gmap string string;
  content : Content
}.

Definition JSONResponse (status_code : Z) (j : json) : Response :=
  {| status := status_code; resp_headers := ∅; content := Json j |}.

Definition PlainTextResponse (status_code : Z) (s : string) : Response :=
  {| status := status_code; resp_headers := ∅; content := Text s |}.

Definition EmptyResponse (status_code : Z) : Response :=
  {| status := status_code; resp_headers := ∅; content := Empty |}.

(** [response.headers[k] = v] *)
Definition set_header (k v : string) (r : Response) : Response :=
  {| status := status r; resp_headers := <[k := v]> (resp_headers r);
     content := content r |}.

(** The route a request was resolved to, with its validated parameters.
    [Unhandled] stands for a request that no handler of the program
    accepts (unknown path, wrong method, invalid parameter or body) and
    carries the method and path of the request line and the answer the
    framework gives by itself. *)
Inductive Route :=
| GET_health
| GET_admin_secret
| GET_users
| GET_user (user_id : Z)
| POST_users (user : UserIn str)
| PUT_user (user_id : Z) (user : UserIn str)
| DELETE_user (user_id : Z)
| Unhandled (method path : string) (answer : Response).

(** [url_path]: [request.url.path], the path of the URL that Starlette
    rebuilds from the [Host] header and the request line.
    [headers]: the request headers by field name, in the spelling the
    program uses (the framework's lookup ignores case). *)
Record Request := {
  route : Route;
  url_path : string;
  headers : gmap string string
}.

Definition decimal (z : Z) : string := NilZero.string_of_int (Z.to_int z).

Definition method (request : Request) : string :=
  match route request with
  | GET_health | GET_admin_secret | GET_users | GET_user _ => "GET"
  | POST_users _ => "POST"
  | PUT_user _ _ => "PUT"
  | DELETE_user _ => "DELETE"
  | Unhandled m _ _ => m
  end.

(** The path of the request line, which the router has matched. *)
Definition route_path (r : Route) : string :=
  match r with
  | GET_health => "/health"
  | GET_admin_secret => "/admin/secret"
  | GET_users | POST_users _ => "/users"
  | GET_user i | PUT_user i _ | DELETE_user i => "/users/" +:+ decimal i
  | Unhandled _ p _ => p
  end.

(** ** Serialisation of handler results *)

(** Field order of [UserOut]: the inherited fields, then [id]. *)
Definition user_json (u : UserOut string) : json :=
  JObj [("username", JStr (username (fields u)));
        ("email", JStr (email (fields u)));
        ("age", JInt (age (fields u)));
        ("id", JInt (id u))].

Definition detail_json (detail : string) : json :=
  JObj [("detail", JStr detail)].

(** [JSONResponse.render] encodes the body in UTF-8. *)
Definition render_user (u : UserOut str) : option Content :=
  match encode_user u with
  | Some t => Some (Json (user_json t))
  | None => None
  end.

Definition render_users (l : list (UserOut str)) : option Content :=
  match mapM encode_user l with
  | Some t => Some (Json (JArr (map user_json t)))
  | None => None
  end.

(** A path operation: run the handler and serialise what it returns under
    the declared status code.  Exceptions pass through. *)
Definition endpoint {A} (status_code : Z) (render : A -> option Content)
    (handler : M Disk A) : M Disk Response :=
  a <- handler ;;
  match render a with
  | Some body =>
      ret {| status := status_code; resp_headers := ∅; content := body |}
  | None => raise UnicodeEncodeError
  end.

(** ** Static handlers *)

Definition health : M Disk json :=
  ret (JObj [("status", JStr "ok")]).

Definition admin_secret : M Disk json :=
  ret (JObj [("ok", JBool true); ("msg", JStr "Welcome, admin.")]).

(** ** Routing table *)

Definition dispatch (request : Request) : M Disk Response :=
  match route request with
  | GET_health => endpoint 200 (fun j => Some (Json j)) health
  | GET_admin_secret => endpoint 200 (fun j => Some (Json j)) admin_secret
  | GET_users => endpoint 200 render_users list_users
  | GET_user user_id => endpoint 200 render_user (get_user user_id)
  | POST_users user => endpoint 201 render_user (create_user user)
  | PUT_user user_id user => endpoint 200 render_user (update_user user_id user)
  | DELETE_user user_id => endpoint 204 (fun _ => Some Empty) (delete_user user_id)
  | Unhandled _ _ answer => ret answer
  end.

Definition App : Type := Request -> M World Response.

Definition router : App := fun request => on_disk (dispatch request).

(** ** Framework middleware *)

Definition Middleware : Type := App -> App.

(** FastAPI's handler for [HTTPException], installed in Starlette's
    [ExceptionMiddleware] directly around the router. *)
Definition is_body_allowed_for_status_code (status_code : Z) : bool :=
  negb ((status_code <? 200) || (status_code =? 204) || (status_code =? 205)
        || (status_code =? 304)).

Definition ExceptionMiddleware : Middleware := fun app request w =>
  match app request w with
  | (Raise (HTTPException status_code detail), w') =>
      (Return (if is_body_allowed_for_status_code status_code
               then JSONResponse status_code (detail_json detail)
               else EmptyResponse status_code), w')
  | r => r
  end.

(** Starlette's [ServerErrorMiddleware], the outermost layer: any exception
    that is left becomes a 500, so the client always gets a response. *)
Definition ServerErrorMiddleware (app : App) (request : Request) (w : World)
    : Response * World :=
  match app request w with
  | (Return response, w') => (response, w')
  | (Raise _, w') => (PlainTextResponse 500 "Internal Server Error", w')
  end.

(** Starlette's [CORSMiddleware] under the configuration of [main.py]:
    [allow_origins=["*"], allow_methods=["*"], allow_headers=["*"]].
    Without an [Origin] header it is transparent; a preflight request is
    answered by the middleware itself; otherwise the downstream response
    gets the allow-origin header (the origin itself when the request
    carries a cookie). *)
Definition ALL_METHODS : list string :=
  ["DELETE"; "GET"; "HEAD"; "OPTIONS"; "PATCH"; "POST"; "PUT"].

Definition is_preflight (request : Request) : bool :=
  bool_decide (method request = "OPTIONS")
  && bool_decide (is_Some (headers request !! "Access-Control-Request-Method")).

Definition preflight_response (request : Request) : Response :=
  let allowed :=
    match headers request !! "Access-Control-Request-Method" with
    | Some requested => bool_decide (requested ∈ ALL_METHODS)
    | None => false
    end in
  let response :=
    if allowed then PlainTextResponse 200 "OK"
    else PlainTextResponse 400 "Disallowed CORS method" in
  let response :=
    set_header "Access-Control-Allow-Origin" "*"
      (set_header "Access-Control-Allow-Methods"
         "DELETE, GET, HEAD, OPTIONS, PATCH, POST, PUT"
         (set_header "Access-Control-Max-Age" "600" response)) in
  match headers request !! "Access-Control-Request-Headers" with
  | Some requested => set_header "Access-Control-Allow-Headers" requested response
  | None => response
  end.

(** The headers added to a downstream response. *)
Definition simple_response (request : Request) (response : Response) : Response :=
  match headers request !! "Origin", headers request !! "Cookie" with
  | Some origin, Some _ =>
      set_header "Vary" "Origin"
        (set_header "Access-Control-Allow-Origin" origin response)
  | _, _ => set_header "Access-Control-Allow-Origin" "*" response
  end.

Definition CORSMiddleware : Middleware := fun app request =>
  match headers request !! "Origin" with
  | None => app request
  | Some _ =>
      if is_preflight request then ret (preflight_response request)
      else
        response <- app request ;;
        ret (simple_response request response)
  end.

(** [@app.middleware("http")]: the decorated function receives the request
    and [call_next], the rest of the stack. *)
Definition http (f : Request -> App -> M World Response) : Middleware :=
  fun call_next request => f request call_next.

(** [add_middleware] puts the new middleware at the front of
    [user_middleware] ([insert(0, ...)]). *)
Definition add_middleware (m : Middleware) (user_middleware : list Middleware)
    : list Middleware :=
  m :: user_middleware.

(** [build_middleware_stack]: the stack is
    [ServerErrorMiddleware :: user_middleware ++ [ExceptionMiddleware]];
    starting from the router, each element wraps the application built so
    far, taken in reverse, so that the head of the list ends up outermost. *)
Definition build_middleware_stack (user_middleware : list Middleware)
    (router : App) : Request -> World -> Response * World :=
  ServerErrorMiddleware
    (fold_left (fun app m => m app)
       (rev (user_middleware ++ [ExceptionMiddleware])) router).

(** ** Program middleware *)

(** [time.perf_counter()]: the current reading; the clock then moves on by
    the next delay. *)
Definition perf_counter : M World N :=
  fun w => (Return (clock w),
            {| disk := disk w;
               clock := (clock w + hd 0 (delays w))%N;
               delays := tl (delays w) |}).

Definition digit (n : N) : ascii := ascii_of_N (48 + n).

(** [f"{x:.2f}"] for a duration given in hundredths. *)
Definition format_2f (h : Z) : string :=
  let a := Z.abs_N h in
  (if h <? 0 then "-" else "")
  +:+ NilZero.string_of_uint (N.to_uint (a / 100))
  +:+ "."
  +:+ String (digit ((a mod 100) / 10)) (String (digit (a mod 10)) "").

Definition timing_header (request : Request) (call_next : App)
    : M World Response :=
  start <- perf_counter ;;
  response <- call_next request ;;
  stop <- perf_counter ;;
  let duration_ms := Z.of_N stop - Z.of_N start in
  ret (set_header "X-Process-Time" (format_2f duration_ms +:+ "ms") response).

Section Application.

(** [settings.API_KEY]: read from the environment, ["secret"] by default. *)
Variable API_KEY : string.

Definition unauthorized : Response :=
  JSONResponse 401 (detail_json "Unauthorized (missing/invalid X-API-Key)").

Definition admin_guard (request : Request) (call_next : App)
    : M World Response :=
  if String.prefix "/admin/" (url_path request) then
    let provided := headers request !! "X-API-Key" in
    if bool_decide (provided ≠ Some API_KEY) then ret unauthorized
    else call_next request
  else call_next request.

(** The middleware registered by [main.py], in the order of the file. *)
Definition user_middleware : list Middleware :=
  add_middleware (http admin_guard)
    (add_middleware (http timing_header)
       (add_middleware CORSMiddleware [])).

Definition app : Request -> World -> Response * World :=
  build_middleware_stack user_middleware router.

End Application.

(** The pattern [^\d+\.\d{2}ms$] on ASCII text. *)
Definition is_digit (c : ascii) : bool :=
  ((48 <=? N_of_ascii c) && (N_of_ascii c <=? 57))%N.

Fixpoint skip_digits (s : string) : string :=
  match s with
  | String c r => if is_digit c then skip_digits r else s
  | EmptyString => EmptyString
  end.

Definition matches_process_time (s : string) : bool :=
  match s with
  | String c r =>
      is_digit c &&
      match skip_digits r with
      | String "."%char (String a (String b "ms")) => is_digit a && is_digit b
      | _ => false
      end
  | EmptyString => false
  end.

(** ** Sequences of requests *)

(** The service answering a list of requests one after the other; the log
    pairs each request with its response. *)
Fixpoint serve (API_KEY : string) (requests : list Request) (w : World)
    : list (Request * Response) * World :=
  match requests with
  | [] => ([], w)
  | request :: rest =>
      let '(response, w1) := app API_KEY request w in
      let '(log, w2) := serve API_KEY rest w1 in
      ((request, response) :: log, w2)
  end.

Definition json_member (k : string) (j : json) : option json :=
  match j with
  | JObj members => snd <$> List.find (fun m => String.eqb (fst m) k) members
  | _ => None
  end.

(** The id that a logged exchange assigned: the [id] of the record returned
    with status 201 by [POST /users]. *)
Definition assigned_id (exchange : Request * Response) : option Z :=
  match route (fst exchange), content (snd exchange) with
  | POST_users _, Json j =>
      if status (snd exchange) =? 201 then
        match json_member "id" j with
        | Some (JInt n) => Some n
        | _ => None
        end
      else None
  | _, _ => None
  end.

Definition assigned_ids (log : list (Request * Response)) : list Z :=
  omap assigned_id log.

(** The file can be read: it is absent, and will be created, or it holds a
    document. *)
Definition readable (s : Disk) : Prop := data_file s <> Some Corrupt.

(** The document that a readable file stands for: its content, or the
    default document when the file is absent and will be created by the
    next access. *)
Definition file_document (s : Disk) : Document string :=
  match data_file s with
  | Some (Holds t) => t
  | _ => default_document
  end.

(** The document that [load_db] hands to a handler when the file can be
    read. *)
Definition loaded (s : Disk) : Document str :=
  decode_document (file_document s).

Definition ids {T} (d : Document T) : list Z := map id (users d).

(** The guard rejects: an admin path without the right key. *)
Definition rejected (API_KEY : string) (request : Request) : bool :=
  String.prefix "/admin/" (url_path request)
  && bool_decide (headers request !! "X-API-Key" ≠ Some API_KEY).

(** The CORS middleware answers by itself: a preflight request. *)
Definition preflighted (request : Request) : bool :=
  bool_decide (is_Some (headers request !! "Origin")) && is_preflight request.

(** What the router and the handler of [HTTPException] around it answer,
    and what they leave on the disk. *)
Definition answer (request : Request) (s : Disk) : outcome Response * Disk :=
  match dispatch request s with
  | (Raise (HTTPException status_code detail), s') =>
      (Return (if is_body_allowed_for_status_code status_code
               then JSONResponse status_code (detail_json detail)
               else EmptyResponse status_code), s')
  | r => r
  end.

(** The handling of the request ends in an exception that nothing catches
    before [ServerErrorMiddleware]. *)
Definition faults (request : Request) (s : Disk) : bool :=
  match answer request s with
  | (Raise _, _) => true
  | (Return _, _) => false
  end.

(** The world after a request whose handling raised: the clock was read
    once. *)
Definition after_fault (w : World) (s : Disk) : World :=
  {| disk := s;
     clock := (clock w + hd 0 (delays w))%N;
     delays := tail (delays w) |}.

(** What the CORS middleware makes of a downstream response. *)
Definition with_cors (request : Request) (response : Response) : Response :=
  match headers request !! "Origin" with
  | Some _ => simple_response request response
  | None => response
  end.

(** The world after a request that went through the timing middleware: the
    clock was read twice. *)
Definition after_timing (w : World) (s : Disk) : World :=
  {| disk := s;
     clock := (clock w + hd 0 (delays w) + hd 0 (tail (delays w)))%N;
     delays := tail (tail (delays w)) |}.

(** The header that the timing middleware sets when the world before the
    request is [w]: the elapsed time is the first delay. *)
Definition stamp (w : World) (response : Response) : Response :=
  set_header "X-Process-Time"
    (format_2f (Z.of_N (hd 0%N (delays w))) +:+ "ms") response.

(** The requests that are resolved to a CRUD handler. *)
Definition crud (request : Request) : bool :=
  match route request with
  | GET_users | GET_user _ | POST_users _ | PUT_user _ _ | DELETE_user _ => true
  | _ => false
  end.

(** [db.get("next_id", 1)] on the document that [load_db] returns. *)
Definition upcoming_id (s : Disk) : Z := default 1 (next_id (file_document s)).

(** What a request that reaches its handler leaves in a file that held the
    document [t]: a document, or [None] when the dump fails and the file is
    left corrupt. *)
Definition file_after (r : Route) (t : Document string)
    : option (Document string) :=
  match r with
  | POST_users user =>
      match encode_fields user with
      | Some f =>
          Some {| users := users t ++ [{| id := default 1 (next_id t); fields := f |}];
                  next_id := Some (default 1 (next_id t) + 1) |}
      | None => None
      end
  | PUT_user user_id user =>
      match list_find (has_id user_id) (users t) with
      | Some (i, _) =>
          match encode_fields user with
          | Some f =>
              Some {| users := <[i := {| id := user_id; fields := f |}]> (users t);
                      next_id := next_id t |}
          | None => None
          end
      | None => Some t
      end
  | DELETE_user user_id =>
      match list_find (has_id user_id) (users t) with
      | Some (i, _) => Some {| users := delete i (users t); next_id := next_id t |}
      | None => Some t
      end
  | _ => Some t
  end.

Definition content_after (r : Route) (t : Document string) : FileContent :=
  match file_after r t with
  | Some t' => Holds t'
  | None => Corrupt
  end.

(** The store invariant: a counter, distinct ids, all below the counter. *)
Definition well_formed {T} (d : Document T) : Prop :=
  exists n, next_id d = Some n
            /\ NoDup (ids d)
            /\ Forall (fun i => i < n) (ids d).

(** ** Further observations *)

(** The request changes the document: a create, or an update or delete
    whose id some record of the document carries. *)
Definition mutates {T} (r : Route) (d : Document T) : bool :=
  match r with
  | POST_users _ => true
  | PUT_user user_id _ | DELETE_user user_id => bool_decide (user_id ∈ ids d)
  | _ => false
  end.

(** Records in increasing order of id, all below the counter. *)
Definition ordered {T} (d : Document T) : Prop :=
  exists n, next_id d = Some n
            /\ StronglySorted Z.lt (ids d)
            /\ Forall (fun i => i < n) (ids d).

(** ** Sample data *)

Definition alice : UserIn str :=
  {| username := Utf8 "a"; email := Utf8 "a@x.com"; age := 30 |}.

Definition bob : UserIn str :=
  {| username := Utf8 "b"; email := Utf8 "b@x.org"; age := 41 |}.

(** A body that Pydantic accepts and UTF-8 cannot encode: the user name is
    the lone surrogate U+D800. *)
Definition mallory : UserIn str :=
  {| username := Lone [55296%N]; email := Utf8 "m@x.com"; age := 20 |}.

Definition alice' : UserIn string :=
  {| username := "a"; email := "a@x.com"; age := 30 |}.

Definition bob' : UserIn string :=
  {| username := "b"; email := "b@x.org"; age := 41 |}.

(** A request with a plain [Host] header: the path of its URL is the path
    that was routed. *)
Definition request_of (r : Route) : Request :=
  {| route := r; url_path := route_path r; headers := ∅ |}.

Definition with_key (k : string) (r : Route) : Request :=
  {| route := r; url_path := route_path r; headers := {["X-API-Key" := k]} |}.

(** A request to [r] with the header [Host: a?]: Starlette rebuilds
    [http://a?<path>], whose path is empty. *)
Definition with_host_query (r : Route) : Request :=
  {| route := r; url_path := ""; headers := {["Host" := "a?"]} |}.

(** A request to [r] with the header [Host: a/admin/x?]: the path of the
    rebuilt URL is [/admin/x]. *)
Definition with_host_path (r : Route) : Request :=
  {| route := r; url_path := "/admin/x"; headers := {["Host" := "a/admin/x?"]} |}.

Definition world_of (file : option FileContent) : World :=
  {| disk := {| data_file := file; writes := 0 |};
     clock := 0; delays := [1234; 5]%N |}.

Definition two_users : Document string :=
  {| users := [{| id := 1; fields := alice' |}; {| id := 2; fields := bob' |}];
     next_id := Some 3 |}.

(** Two records with the same id: the document that [create_user] leaves
    when it runs on [no_counter] below with [bob]. *)
Definition twins : Document string :=
  {| users := [{| id := 1; fields := alice' |}; {| id := 1; fields := bob' |}];
     next_id := Some 2 |}.

(** A document without [next_id]. *)
Definition no_counter : Document string :=
  {| users := [{| id := 1; fields := alice' |}]; next_id := None |}.

(** ** Encoding *)

Section Encoding.

Lemma encode_decode_fields (f : UserIn string) :
  encode_fields (decode_fields f) = Some f.
Proof. destruct f. reflexivity. Qed.

Lemma encode_decode_user (u : UserOut string) :
  encode_user (decode_user u) = Some u.
Proof. destruct u as [n [a b c]]. reflexivity. Qed.

Lemma encode_decode_users (l : list (UserOut string)) :
  mapM encode_user (decode_user <$> l) = Some l.
Proof. apply mapM_fmap_Some. exact encode_decode_user. Qed.

Lemma encode_decode_document (t : Document string) :
  encode_document (decode_document t) = Some t.
Proof.
  unfold encode_document. destruct t as [l n]. simpl.
  rewrite encode_decode_users. reflexivity.
Qed.

Lemma encode_user_fields n (f : UserIn str) :
  encode_user {| id := n; fields := f |}
  = match encode_fields f with
    | Some f' => Some {| id := n; fields := f' |}
    | None => None
    end.
Proof. reflexivity. Qed.

(** Encoding a list of records read from the file with one more at the
    end: it is the new record that decides. *)
Lemma encode_users_app (l : list (UserOut string)) (r : UserOut str) :
  mapM encode_user ((decode_user <$> l) ++ [r])%list
  = match encode_user r with
    | Some r' => Some (l ++ [r'])%list
    | None => None
    end.
Proof.
  induction l as [|[n [a b c]] l IH]; simpl.
  - destruct (encode_user r); reflexivity.
  - change (list_fmap _ _ decode_user l) with (decode_user <$> l).
    rewrite IH. destruct (encode_user r); reflexivity.
Qed.

(** The same with one record replaced. *)
Lemma encode_users_insert (l : list (UserOut string)) i (r : UserOut str) :
  (i < length l)%nat ->
  mapM encode_user (<[i := r]> (decode_user <$> l))
  = match encode_user r with
    | Some r' => Some (<[i := r']> l)
    | None => None
    end.
Proof.
  revert i. induction l as [|[n [a b c]] l IH]; intros i Hi; simpl in Hi; [lia|].
  destruct i as [|i]; simpl.
  - change (list_fmap _ _ decode_user l) with (decode_user <$> l).
    rewrite encode_decode_users. destruct (encode_user r); reflexivity.
  - change (list_fmap _ _ decode_user l) with (decode_user <$> l).
    rewrite IH by lia. destruct (encode_user r); reflexivity.
Qed.

Lemma encode_users_delete (l : list (UserOut string)) i :
  mapM encode_user (delete i (decode_user <$> l)) = Some (delete i l).
Proof. rewrite <- list_fmap_delete. apply encode_decode_users. Qed.

(** The scan over the records as loaded finds what it finds in the file. *)
Lemma find_decoded user_id (l : list (UserOut string)) :
  list_find (has_id user_id) (decode_user <$> l)
  = prod_map (fun i => i) decode_user <$> list_find (has_id user_id) l.
Proof.
  rewrite list_find_fmap.
  rewrite (list_find_ext (has_id user_id ∘ decode_user) (has_id user_id));
    [reflexivity|].
  intros u. reflexivity.
Qed.

End Encoding.

(** ** The store *)

Section Store.

Implicit Types (s : Disk) (t : Document string) (user : UserIn str) (user_id : Z).

Lemma ensure_absent s :
  data_file s = None ->
  _ensure_db s
  = (Return tt,
     {| data_file := Some (Holds default_document); writes := S (writes s) |}).
Proof. intros H. unfold _ensure_db, bind, exists_file. rewrite H. reflexivity. Qed.

Lemma ensure_present s c :
  data_file s = Some c -> _ensure_db s = (Return tt, s).
Proof. intros H. unfold _ensure_db, bind, exists_file. rewrite H. reflexivity. Qed.

Lemma ensure_returns s : (_ensure_db s).1 = Return tt.
Proof.
  destruct (data_file s) as [c|] eqn:E.
  - rewrite (ensure_present s c E). reflexivity.
  - rewrite (ensure_absent s E). reflexivity.
Qed.

Lemma ensure_loaded s :
  readable s -> data_file (_ensure_db s).2 = Some (Holds (file_document s)).
Proof.
  unfold readable, file_document. intros H.
  destruct (data_file s) as [[|t]|] eqn:E.
  - contradiction.
  - rewrite (ensure_present s _ E). simpl. exact E.
  - rewrite (ensure_absent s E). reflexivity.
Qed.

Lemma file_document_ensure s : file_document (_ensure_db s).2 = file_document s.
Proof.
  destruct (data_file s) as [c|] eqn:E.
  - rewrite (ensure_present s c E). reflexivity.
  - rewrite (ensure_absent s E). unfold file_document. rewrite E. reflexivity.
Qed.

Lemma readable_ensure s : readable s -> readable (_ensure_db s).2.
Proof. intros H. unfold readable. rewrite (ensure_loaded s H). discriminate. Qed.

Lemma load_db_eq s :
  readable s -> load_db s = (Return (loaded s), (_ensure_db s).2).
Proof.
  intros H. unfold load_db, bind, read_file.
  pose proof (ensure_loaded s H) as Hl. pose proof (ensure_returns s) as Hr.
  destruct (_ensure_db s) as [o s'] eqn:E. simpl in *. subst o.
  rewrite Hl. reflexivity.
Qed.

Lemma load_db_corrupt s :
  data_file s = Some Corrupt -> load_db s = (Raise JSONDecodeError, s).
Proof.
  intros H. unfold load_db, bind, read_file.
  rewrite (ensure_present s _ H), H. reflexivity.
Qed.

Lemma get_user_eq user_id s :
  readable s ->
  get_user user_id s
  = match list_find (has_id user_id) (users (file_document s)) with
    | Some (_, u) => (Return (decode_user u), (_ensure_db s).2)
    | None => (Raise (HTTPException 404 "User not found"), (_ensure_db s).2)
    end.
Proof.
  intros H. unfold get_user, bind. rewrite (load_db_eq s H).
  unfold loaded, decode_document. simpl. rewrite find_decoded.
  destruct (list_find _ _) as [[i u]|]; reflexivity.
Qed.

Lemma list_users_eq s :
  readable s ->
  list_users s
  = (Return (decode_user <$> users (file_document s)), (_ensure_db s).2).
Proof. intros H. unfold list_users, bind. rewrite (load_db_eq s H). reflexivity. Qed.

Lemma create_user_eq user s :
  readable s ->
  create_user user s
  = let new_id := default 1 (next_id (file_document s)) in
    match encode_fields user with
    | Some f =>
        (Return {| id := new_id; fields := user |},
         {| data_file :=
              Some (Holds {| users := users (file_document s)
                                      ++ [{| id := new_id; fields := f |}];
                             next_id := Some (new_id + 1) |});
            writes := S (writes (_ensure_db s).2) |})
    | None =>
        (Raise UnicodeEncodeError,
         {| data_file := Some Corrupt; writes := S (writes (_ensure_db s).2) |})
    end.
Proof.
  intros H. unfold create_user, bind. rewrite (load_db_eq s H).
  unfold save_db, write_file, encode_document, loaded, decode_document. simpl.
  rewrite encode_users_app, encode_user_fields.
  destruct (encode_fields user); reflexivity.
Qed.

Lemma update_user_eq user_id user s :
  readable s ->
  update_user user_id user s
  = match list_find (has_id user_id) (users (file_document s)) with
    | Some (i, _) =>
        match encode_fields user with
        | Some f =>
            (Return {| id := user_id; fields := user |},
             {| data_file :=
                  Some (Holds {| users := <[i := {| id := user_id; fields := f |}]>
                                            (users (file_document s));
                                 next_id := next_id (file_document s) |});
                writes := S (writes (_ensure_db s).2) |})
        | None =>
            (Raise UnicodeEncodeError,
             {| data_file := Some Corrupt;
                writes := S (writes (_ensure_db s).2) |})
        end
    | None => (Raise (HTTPException 404 "User not found"), (_ensure_db s).2)
    end.
Proof.
  intros H. unfold update_user, bind. rewrite (load_db_eq s H).
  unfold loaded, decode_document. simpl. rewrite find_decoded.
  destruct (list_find _ _) as [[i u]|] eqn:E; [|reflexivity]. simpl.
  apply list_find_Some in E as (Hi & _ & _). apply lookup_lt_Some in Hi.
  unfold save_db, write_file, encode_document. simpl.
  rewrite (encode_users_insert _ _ _ Hi), encode_user_fields.
  destruct (encode_fields user); reflexivity.
Qed.

Lemma delete_user_eq user_id s :
  readable s ->
  delete_user user_id s
  = match list_find (has_id user_id) (users (file_document s)) with
    | Some (i, _) =>
        (Return tt,
         {| data_file :=
              Some (Holds {| users := delete i (users (file_document s));
                             next_id := next_id (file_document s) |});
            writes := S (writes (_ensure_db s).2) |})
    | None => (Raise (HTTPException 404 "User not found"), (_ensure_db s).2)
    end.
Proof.
  intros H. unfold delete_user, bind. rewrite (load_db_eq s H).
  unfold loaded, decode_document. simpl. rewrite find_decoded.
  destruct (list_find _ _) as [[i u]|] eqn:E; [|reflexivity]. simpl.
  unfold save_db, write_file, encode_document. simpl.
  rewrite encode_users_delete. reflexivity.
Qed.

End Store.

(** ** Formatting of the elapsed time *)

Section Formatting.

Lemma append_assoc (a b c : string) : (a +:+ b) +:+ c = a +:+ (b +:+ c).
Proof.
  induction a as [|x a IH]; [reflexivity|].
  change (String x ((a +:+ b) +:+ c) = String x (a +:+ (b +:+ c))).
  now rewrite IH.
Qed.

Lemma is_digit_digit n : (n < 10)%N -> is_digit (digit n) = true.
Proof.
  intros H. unfold is_digit, digit.
  rewrite N_ascii_embedding by lia.
  apply andb_true_intro; split; apply N.leb_le; lia.
Qed.

Lemma skip_digits_uint d rest :
  skip_digits (NilEmpty.string_of_uint d +:+ rest) = skip_digits rest.
Proof. induction d; simpl; auto. Qed.

Lemma uint_string_shape d :
  exists c r, NilZero.string_of_uint d = String c r
              /\ is_digit c = true
              /\ forall rest, skip_digits (r +:+ rest) = skip_digits rest.
Proof.
  destruct d; simpl;
    try (eexists _, _; split; [reflexivity|]; split; [reflexivity|];
         intros rest; apply skip_digits_uint).
  exists "0"%char, ""; split; [reflexivity|]; split; reflexivity.
Qed.

Lemma format_2f_matches h :
  0 <= h -> matches_process_time (format_2f h +:+ "ms") = true.
Proof.
  intros Hh. unfold format_2f.
  assert ((h <? 0) = false) as -> by (apply Z.ltb_ge; lia).
  set (a := Z.abs_N h).
  destruct (uint_string_shape (N.to_uint (a / 100))) as (c & r & -> & Hc & Hr).
  simpl. rewrite Hc. simpl.
  rewrite append_assoc, Hr. simpl.
  rewrite !is_digit_digit; [reflexivity| |].
  - apply N.mod_lt; lia.
  - apply N.Div0.div_lt_upper_bound. 
    pose proof (N.mod_lt a 100). lia.
Qed.

End Formatting.

(** ** The middleware stack *)

Section Stack.

Variable API_KEY : string.

Implicit Types (request : Request) (w : World) (s : Disk).

(** The stack that Starlette builds from the registrations of [main.py]:
    the middleware registered last, [admin_guard], is the outermost. *)
Lemma app_stack :
  app API_KEY
  = ServerErrorMiddleware
      (http (admin_guard API_KEY)
         (http timing_header
            (CORSMiddleware (ExceptionMiddleware router)))).
Proof. reflexivity. Qed.

Lemma router_eq request w :
  ExceptionMiddleware router request w
  = ((answer request (disk w)).1,
     {| disk := (answer request (disk w)).2;
        clock := clock w; delays := delays w |}).
Proof.
  unfold ExceptionMiddleware, router, on_disk, answer.
  destruct (dispatch request (disk w)) as [[r|[c d| | |]] s']; reflexivity.
Qed.

Lemma cors_eq request w :
  CORSMiddleware (ExceptionMiddleware router) request w
  = if preflighted request then (Return (preflight_response request), w)
    else (match (answer request (disk w)).1 with
          | Return response => Return (with_cors request response)
          | Raise e => Raise e
          end,
          {| disk := (answer request (disk w)).2;
             clock := clock w; delays := delays w |}).
Proof.
  unfold CORSMiddleware, preflighted, with_cors, bind.
  destruct (headers request !! "Origin") as [o|] eqn:E; simpl.
  - destruct (is_preflight request); [reflexivity|].
    rewrite router_eq. destruct (answer request (disk w)).1; reflexivity.
  - rewrite router_eq. destruct (answer request (disk w)).1; reflexivity.
Qed.

Lemma status_with_cors request response :
  status (with_cors request response) = status response.
Proof.
  unfold with_cors, simple_response.
  destruct (headers request !! "Origin"), (headers request !! "Cookie");
    reflexivity.
Qed.

Lemma content_with_cors request response :
  content (with_cors request response) = content response.
Proof.
  unfold with_cors, simple_response.
  destruct (headers request !! "Origin"), (headers request !! "Cookie");
    reflexivity.
Qed.

(** Every request, by cases: rejected by the guard; answered by the CORS
    middleware; answered by the router; ended by an exception. *)
Lemma app_eq request w :
  app API_KEY request w
  = if rejected API_KEY request then (unauthorized, w)
    else if preflighted request
    then (stamp w (preflight_response request), after_timing w (disk w))
    else match (answer request (disk w)).1 with
         | Return response =>
             (stamp w (with_cors request response),
              after_timing w (answer request (disk w)).2)
         | Raise _ =>
             (PlainTextResponse 500 "Internal Server Error",
              after_fault w (answer request (disk w)).2)
         end.
Proof.
  rewrite app_stack. unfold rejected, stamp, after_timing, after_fault.
  unfold ServerErrorMiddleware, http at 1, admin_guard.
  assert (forall a b : N, Z.of_N (a + b) - Z.of_N a = Z.of_N b) as Hd by lia.
  assert (ServerErrorMiddleware
            (http timing_header (CORSMiddleware (ExceptionMiddleware router)))
            request w
          = if preflighted request
            then (stamp w (preflight_response request), after_timing w (disk w))
            else match (answer request (disk w)).1 with
                 | Return response =>
                     (stamp w (with_cors request response),
                      after_timing w (answer request (disk w)).2)
                 | Raise _ =>
                     (PlainTextResponse 500 "Internal Server Error",
                      after_fault w (answer request (disk w)).2)
                 end) as Ht.
  { unfold ServerErrorMiddleware, http, timing_header, bind.
    unfold stamp, after_timing, after_fault.
    unfold perf_counter at 1. cbv beta iota. rewrite cors_eq.
    destruct (preflighted request).
    - unfold ret, perf_counter. simpl. rewrite Hd. reflexivity.
    - simpl. destruct (answer request (disk w)).1.
      + unfold ret, perf_counter. simpl. rewrite Hd. reflexivity.
      + reflexivity. }
  unfold ServerErrorMiddleware, stamp, after_timing, after_fault in Ht.
  destruct (String.prefix _ _); simpl.
  - destruct (bool_decide (_ <> _)); [reflexivity|]. exact Ht.
  - exact Ht.
Qed.

Lemma stamped w response :
  exists v, resp_headers (stamp w response) !! "X-Process-Time" = Some v
            /\ matches_process_time v = true.
Proof.
  eexists. split.
  - unfold stamp, set_header. simpl. apply lookup_insert_eq.
  - apply format_2f_matches. lia.
Qed.

Lemma app_rejected_eq request w :
  rejected API_KEY request = true -> app API_KEY request w = (unauthorized, w).
Proof. intros H. rewrite app_eq, H. reflexivity. Qed.

(** A request that reaches the router and is answered: what the client sees
    of the answer, and what is left on the disk. *)
Lemma app_answered request w response s' :
  rejected API_KEY request = false ->
  preflighted request = false ->
  answer request (disk w) = (Return response, s') ->
  status (app API_KEY request w).1 = status response
  /\ content (app API_KEY request w).1 = content response
  /\ disk (app API_KEY request w).2 = s'.
Proof.
  intros Hr Hp Ha. rewrite app_eq, Hr, Hp, Ha. simpl.
  rewrite status_with_cors, content_with_cors. repeat split; reflexivity.
Qed.

(** A request that reaches the router and whose handling raises. *)
Lemma app_faulted request w e s' :
  rejected API_KEY request = false ->
  preflighted request = false ->
  answer request (disk w) = (Raise e, s') ->
  app API_KEY request w
  = (PlainTextResponse 500 "Internal Server Error", after_fault w s').
Proof. intros Hr Hp Ha. rewrite app_eq, Hr, Hp, Ha. reflexivity. Qed.

(** The disk after a request is the one before, or the one the router
    left. *)
Lemma app_disk request w :
  disk (app API_KEY request w).2 = disk w
  \/ disk (app API_KEY request w).2 = (answer request (disk w)).2.
Proof.
  rewrite app_eq. destruct (rejected _ _); [left; reflexivity|].
  destruct (preflighted _); [left; reflexivity|].
  destruct (answer request (disk w)).1; right; reflexivity.
Qed.

(** Requests resolved to a handler of the program are not preflight
    requests. *)
Lemma handled_not_preflighted request :
  (forall m p a, route request <> Unhandled m p a) -> preflighted request = false.
Proof.
  intros H. unfold preflighted, is_preflight, method.
  destruct (route request) eqn:E; try (rewrite andb_false_r; reflexivity).
  exfalso. exact (H _ _ _ eq_refl).
Qed.

Lemma crud_not_preflighted request :
  crud request = true -> preflighted request = false.
Proof.
  intros H. apply handled_not_preflighted. intros m p a E.
  unfold crud in H. rewrite E in H. discriminate.
Qed.

End Stack.

(** ** Answers of the router, route by route *)

Section Answers.

Implicit Types (request : Request) (s : Disk) (t : Document string).

Lemma file_document_holds s t : data_file s = Some (Holds t) -> file_document s = t.
Proof. intros H. unfold file_document. rewrite H. reflexivity. Qed.

Lemma readable_holds s t : data_file s = Some (Holds t) -> readable s.
Proof. intros H. unfold readable. rewrite H. discriminate. Qed.

Lemma readable_absent s : data_file s = None -> readable s.
Proof. intros H. unfold readable. rewrite H. discriminate. Qed.

Lemma not_readable s : ~ readable s -> data_file s = Some Corrupt.
Proof.
  unfold readable. intros H. destruct (data_file s) as [[|t]|]; try reflexivity;
    exfalso; apply H; discriminate.
Qed.

Lemma readable_dec s : {readable s} + {data_file s = Some Corrupt}.
Proof.
  unfold readable. destruct (data_file s) as [[|t]|];
    [right; reflexivity | left; discriminate | left; discriminate].
Qed.

Lemma render_decoded (u : UserOut string) :
  render_user (decode_user u) = Some (Json (user_json u)).
Proof. unfold render_user. rewrite encode_decode_user. reflexivity. Qed.

Lemma answer_create request user s :
  route request = POST_users user ->
  readable s ->
  answer request s
  = match encode_fields user with
    | Some f =>
        (Return {| status := 201; resp_headers := ∅;
                   content := Json (user_json {| id := upcoming_id s;
                                                 fields := f |}) |},
         {| data_file :=
              Some (Holds {| users := users (file_document s)
                                      ++ [{| id := upcoming_id s; fields := f |}];
                             next_id := Some (upcoming_id s + 1) |});
            writes := S (writes (_ensure_db s).2) |})
    | None =>
        (Raise UnicodeEncodeError,
         {| data_file := Some Corrupt; writes := S (writes (_ensure_db s).2) |})
    end.
Proof.
  intros E H. unfold answer, dispatch, endpoint, bind.
  rewrite E, (create_user_eq user s H). unfold upcoming_id. simpl.
  destruct (encode_fields user) as [f|] eqn:Hf; [|reflexivity].
  unfold render_user. rewrite encode_user_fields, Hf. reflexivity.
Qed.

Lemma answer_get request user_id s :
  route request = GET_user user_id ->
  readable s ->
  answer request s
  = match list_find (has_id user_id) (users (file_document s)) with
    | Some (_, u) =>
        (Return {| status := 200; resp_headers := ∅;
                   content := Json (user_json u) |},
         (_ensure_db s).2)
    | None =>
        (Return (JSONResponse 404 (detail_json "User not found")),
         (_ensure_db s).2)
    end.
Proof.
  intros E H. unfold answer, dispatch, endpoint, bind.
  rewrite E, (get_user_eq user_id s H).
  destruct (list_find _ _) as [[i u]|]; [|reflexivity].
  rewrite render_decoded. reflexivity.
Qed.

Lemma answer_list request s :
  route request = GET_users ->
  readable s ->
  answer request s
  = (Return {| status := 200; resp_headers := ∅;
               content := Json (JArr (map user_json (users (file_document s)))) |},
     (_ensure_db s).2).
Proof.
  intros E H. unfold answer, dispatch, endpoint, bind.
  rewrite E, (list_users_eq s H). unfold render_users.
  rewrite encode_decode_users. reflexivity.
Qed.

Lemma answer_update request user_id user s :
  route request = PUT_user user_id user ->
  readable s ->
  answer request s
  = match list_find (has_id user_id) (users (file_document s)) with
    | Some (i, _) =>
        match encode_fields user with
        | Some f =>
            (Return {| status := 200; resp_headers := ∅;
                       content := Json (user_json {| id := user_id;
                                                     fields := f |}) |},
             {| data_file :=
                  Some (Holds {| users := <[i := {| id := user_id; fields := f |}]>
                                            (users (file_document s));
                                 next_id := next_id (file_document s) |});
                writes := S (writes (_ensure_db s).2) |})
        | None =>
            (Raise UnicodeEncodeError,
             {| data_file := Some Corrupt;
                writes := S (writes (_ensure_db s).2) |})
        end
    | None =>
        (Return (JSONResponse 404 (detail_json "User not found")),
         (_ensure_db s).2)
    end.
Proof.
  intros E H. unfold answer, dispatch, endpoint, bind.
  rewrite E, (update_user_eq user_id user s H).
  destruct (list_find _ _) as [[i u]|]; [|reflexivity].
  destruct (encode_fields user) as [f|] eqn:Hf; [|reflexivity].
  unfold render_user. rewrite encode_user_fields, Hf. reflexivity.
Qed.

Lemma answer_delete request user_id s :
  route request = DELETE_user user_id ->
  readable s ->
  answer request s
  = match list_find (has_id user_id) (users (file_document s)) with
    | Some (i, _) =>
        (Return {| status := 204; resp_headers := ∅; content := Empty |},
         {| data_file :=
              Some (Holds {| users := delete i (users (file_document s));
                             next_id := next_id (file_document s) |});
            writes := S (writes (_ensure_db s).2) |})
    | None =>
        (Return (JSONResponse 404 (detail_json "User not found")),
         (_ensure_db s).2)
    end.
Proof.
  intros E H. unfold answer, dispatch, endpoint, bind.
  rewrite E, (delete_user_eq user_id s H).
  destruct (list_find _ _) as [[i u]|]; reflexivity.
Qed.

(** On a corrupt file every CRUD handler stops at [load_db]. *)
Lemma answer_corrupt request s :
  crud request = true ->
  data_file s = Some Corrupt ->
  answer request s = (Raise JSONDecodeError, s).
Proof.
  intros Hc H. pose proof (load_db_corrupt s H) as Hl.
  unfold crud in Hc. unfold answer, dispatch, endpoint.
  destruct (route request); try discriminate.
  - unfold list_users, bind. rewrite Hl. reflexivity.
  - unfold get_user, bind. rewrite Hl. reflexivity.
  - unfold create_user, bind. rewrite Hl. reflexivity.
  - unfold update_user, bind. rewrite Hl. reflexivity.
  - unfold delete_user, bind. rewrite Hl. reflexivity.
Qed.

(** The other routes do not look at the disk. *)
Lemma answer_other request s :
  crud request = false ->
  exists response, answer request s = (Return response, s).
Proof.
  intros Hc. unfold crud in Hc. unfold answer, dispatch.
  destruct (route request); try discriminate; eexists; reflexivity.
Qed.

(** What a CRUD request that reaches its handler leaves in a readable
    file. *)
Lemma answer_file request s :
  crud request = true ->
  readable s ->
  data_file (answer request s).2
  = Some (content_after (route request) (file_document s)).
Proof.
  intros Hc H. pose proof (ensure_loaded s H) as He.
  unfold crud in Hc. unfold content_after.
  destruct (route request) eqn:E; try discriminate; simpl.
  - rewrite (answer_list _ _ E H). exact He.
  - rewrite (answer_get _ _ _ E H).
    destruct (list_find _ _) as [[i u]|]; exact He.
  - rewrite (answer_create _ _ _ E H).
    destruct (encode_fields user); reflexivity.
  - rewrite (answer_update _ _ _ _ E H).
    destruct (list_find _ _) as [[i u]|]; [|exact He].
    destruct (encode_fields user); reflexivity.
  - rewrite (answer_delete _ _ _ E H).
    destruct (list_find _ _) as [[i u]|]; [reflexivity | exact He].
Qed.

(** A match of the scan, in terms of the list. *)
Lemma find_id_Some {T} user_id (l : list (UserOut T)) i u :
  list_find (has_id user_id) l = Some (i, u) ->
  l !! i = Some u /\ id u = user_id
  /\ forall j y, l !! j = Some y -> (j < i)%nat -> id y <> user_id.
Proof. intros H. apply list_find_Some in H. exact H. Qed.

Lemma find_id_None {T} user_id (l : list (UserOut T)) :
  list_find (has_id user_id) l = None <-> Forall (fun u => id u <> user_id) l.
Proof. apply list_find_None. Qed.

Lemma find_id_Exists {T} user_id (l : list (UserOut T)) :
  Exists (has_id user_id) l ->
  exists i u, list_find (has_id user_id) l = Some (i, u).
Proof.
  intros H. destruct (list_find (has_id user_id) l) as [[i u]|] eqn:E.
  - eauto.
  - apply find_id_None in E. exfalso.
    apply Exists_exists in H as (u & Hu & Hid).
    rewrite Forall_forall in E. exact (E u Hu Hid).
Qed.

Lemma find_id_elem {T} user_id (l : list (UserOut T)) :
  list_find (has_id user_id) l = None <-> user_id ∉ map id l.
Proof.
  rewrite find_id_None, Forall_forall. split.
  - intros H Hin. change (map id l) with (id <$> l) in Hin.
    apply list_elem_of_fmap in Hin as (u & -> & Hu). exact (H u Hu eq_refl).
  - intros H u Hu Hid. apply H. rewrite <- Hid.
    change (map id l) with (id <$> l). apply list_elem_of_fmap_2. exact Hu.
Qed.

Lemma find_after_insert {T} user_id (f : UserIn T) (l : list (UserOut T)) i old :
  list_find (has_id user_id) l = Some (i, old) ->
  list_find (has_id user_id) (<[i := {| id := user_id; fields := f |}]> l)
  = Some (i, {| id := user_id; fields := f |}).
Proof.
  intros H. apply find_id_Some in H as (Hi & _ & Hbefore).
  apply list_find_Some. split; [|split].
  - apply list_lookup_insert_eq. eapply lookup_lt_Some. exact Hi.
  - reflexivity.
  - intros j y Hj Hlt. rewrite list_lookup_insert_ne in Hj by lia.
    exact (Hbefore j y Hj Hlt).
Qed.

Lemma find_after_append {T} user_id (f : UserIn T) (l : list (UserOut T)) :
  Forall (fun u => id u <> user_id) l ->
  list_find (has_id user_id) (l ++ [{| id := user_id; fields := f |}])%list
  = Some (length l, {| id := user_id; fields := f |}).
Proof.
  intros H. apply find_id_None in H.
  rewrite (list_find_app_r _ _ _ H). simpl.
  destruct (decide _) as [_|Hn]; [reflexivity|].
  exfalso. apply Hn. reflexivity.
Qed.

Lemma ids_after_insert {T} user_id (f : UserIn T) (l : list (UserOut T)) i old :
  l !! i = Some old -> id old = user_id ->
  map id (<[i := {| id := user_id; fields := f |}]> l) = map id l.
Proof.
  intros Hi Hid.
  change (id <$> <[i := {| id := user_id; fields := f |}]> l = id <$> l).
  rewrite list_fmap_insert. simpl. apply list_insert_id.
  rewrite list_lookup_fmap, Hi. simpl. now rewrite Hid.
Qed.

End Answers.

(** ** Sequences of requests: the counter and the invariant *)

Section Sequences.

Variable API_KEY : string.

Implicit Types (request : Request) (w : World) (s : Disk) (t : Document string).

Lemma ids_decoded t : ids (decode_document t) = ids t.
Proof.
  unfold ids, decode_document. simpl.
  change (map id (decode_user <$> users t)) with (id <$> (decode_user <$> users t)).
  rewrite <- list_fmap_compose. reflexivity.
Qed.

Lemma ids_loaded s : ids (loaded s) = ids (file_document s).
Proof. apply ids_decoded. Qed.

Lemma next_id_file_after r t t' :
  file_after r t = Some t' ->
  next_id t'
  = match r with
    | POST_users _ => Some (default 1 (next_id t) + 1)
    | _ => next_id t
    end.
Proof.
  destruct r; simpl; try (intros [= <-]; reflexivity).
  - destruct (encode_fields user); intros [= <-]. reflexivity.
  - destruct (list_find _ _) as [[i u]|]; [|intros [= <-]; reflexivity].
    destruct (encode_fields user); intros [= <-]. reflexivity.
  - destruct (list_find _ _) as [[i u]|]; intros [= <-]; reflexivity.
Qed.

(** A corrupt file stays corrupt: nothing is written and nothing is
    assigned. *)
Lemma app_corrupt request w :
  data_file (disk w) = Some Corrupt ->
  disk (app API_KEY request w).2 = disk w
  /\ assigned_id (request, (app API_KEY request w).1) = None.
Proof.
  intros H. rewrite app_eq. destruct (rejected API_KEY request).
  { split; [reflexivity|]. unfold assigned_id. simpl.
    destruct (route request); reflexivity. }
  destruct (preflighted request) eqn:Hp.
  { split; [reflexivity|]. unfold assigned_id. simpl.
    destruct (route request) eqn:E; try reflexivity.
    rewrite handled_not_preflighted in Hp; [discriminate|].
    intros m p a. rewrite E. discriminate. }
  destruct (crud request) eqn:Hc.
  - rewrite (answer_corrupt _ _ Hc H). simpl. split; [reflexivity|].
    unfold assigned_id. simpl. destruct (route request); reflexivity.
  - destruct (answer_other request (disk w) Hc) as [response ->]. simpl.
    split; [reflexivity|]. unfold assigned_id, crud in *. simpl.
    destruct (route request); try reflexivity; discriminate.
Qed.

Lemma serve_corrupt requests w :
  data_file (disk w) = Some Corrupt ->
  disk (serve API_KEY requests w).2 = disk w
  /\ assigned_ids (serve API_KEY requests w).1 = [].
Proof.
  revert w. induction requests as [|request rest IH]; intros w H; simpl.
  - split; reflexivity.
  - destruct (app_corrupt request w H) as [Hd Ha].
    destruct (app API_KEY request w) as [response w1]. simpl in *.
    assert (data_file (disk w1) = Some Corrupt) as H1 by (rewrite Hd; exact H).
    destruct (IH w1 H1) as [Hd' Ha'].
    destruct (serve API_KEY rest w1) as [log w2]. simpl in *.
    split; [rewrite Hd', Hd; reflexivity|].
    unfold assigned_ids in *. simpl. rewrite Ha. exact Ha'.
Qed.

(** One request on a readable file: the disk is left alone, or the file
    holds what the handler left. *)
Lemma app_file request w :
  readable (disk w) ->
  disk (app API_KEY request w).2 = disk w
  \/ data_file (disk (app API_KEY request w).2)
     = Some (content_after (route request) (file_document (disk w))).
Proof.
  intros H. destruct (app_disk API_KEY request w) as [Hd|Hd]; [left; exact Hd|].
  destruct (crud request) eqn:Hc.
  - right. rewrite Hd. apply answer_file; assumption.
  - left. rewrite Hd. destruct (answer_other request (disk w) Hc) as [r ->].
    reflexivity.
Qed.

(** A create through the stack that is answered 201. *)
Lemma app_created request user w :
  route request = POST_users user ->
  status (app API_KEY request w).1 = 201 ->
  rejected API_KEY request = false
  /\ readable (disk w)
  /\ exists f,
       encode_fields user = Some f
       /\ content (app API_KEY request w).1
          = Json (user_json {| id := upcoming_id (disk w); fields := f |})
       /\ disk (app API_KEY request w).2
          = {| data_file :=
                 Some (Holds {| users := users (file_document (disk w))
                                         ++ [{| id := upcoming_id (disk w);
                                                fields := f |}];
                                next_id := Some (upcoming_id (disk w) + 1) |});
               writes := S (writes (_ensure_db (disk w)).2) |}.
Proof.
  intros E Hs.
  assert (preflighted request = false) as Hp.
  { apply handled_not_preflighted. intros m p a. rewrite E. discriminate. }
  destruct (rejected API_KEY request) eqn:Hr.
  { rewrite (app_rejected_eq API_KEY request w Hr) in Hs. discriminate. }
  assert (crud request = true) as Hc by (unfold crud; rewrite E; reflexivity).
  destruct (readable_dec (disk w)) as [H|H].
  2: { rewrite (app_faulted API_KEY request w _ _ Hr Hp (answer_corrupt _ _ Hc H))
         in Hs. discriminate. }
  pose proof (answer_create request user (disk w) E H) as Ha.
  destruct (encode_fields user) as [f|] eqn:Hf.
  - destruct (app_answered API_KEY request w _ _ Hr Hp Ha) as (_ & Hcont & Hd).
    split; [reflexivity|]. split; [exact H|]. exists f.
    split; [reflexivity|]. split; assumption.
  - rewrite (app_faulted API_KEY request w _ _ Hr Hp Ha) in Hs. discriminate.
Qed.

Lemma assigned_created request w i :
  assigned_id (request, (app API_KEY request w).1) = Some i ->
  exists user,
    route request = POST_users user /\ status (app API_KEY request w).1 = 201.
Proof.
  unfold assigned_id. simpl. destruct (route request); try discriminate.
  destruct (content _); try discriminate.
  destruct (status _ =? 201) eqn:E; [|discriminate].
  intros _. exists user. split; [reflexivity|]. apply Z.eqb_eq. exact E.
Qed.

(** One request: when an id is assigned it is the counter, and the counter
    moves on by one; otherwise the counter stays, unless the file is left
    corrupt. *)
Lemma app_counter request w :
  match assigned_id (request, (app API_KEY request w).1) with
  | Some i =>
      i = upcoming_id (disk w)
      /\ upcoming_id (disk (app API_KEY request w).2) = i + 1
      /\ readable (disk (app API_KEY request w).2)
  | None =>
      data_file (disk (app API_KEY request w).2) = Some Corrupt
      \/ upcoming_id (disk (app API_KEY request w).2) = upcoming_id (disk w)
  end.
Proof.
  destruct (assigned_id _) as [i|] eqn:Ha.
  - destruct (assigned_created request w i Ha) as (user & E & Hs).
    destruct (app_created request user w E Hs) as (_ & _ & f & _ & Hc & Hd).
    unfold assigned_id in Ha. simpl in Ha. rewrite E, Hc, Hs in Ha. simpl in Ha.
    injection Ha as <-. rewrite Hd. split; [reflexivity|].
    split; [reflexivity|]. unfold readable. simpl. discriminate.
  - destruct (readable_dec (disk w)) as [H|H].
    2: { left. destruct (app_corrupt request w H) as [-> _]. exact H. }
    destruct (route request) eqn:E.
    5: {
      assert (preflighted request = false) as Hp.
      { apply handled_not_preflighted. intros m p a. rewrite E. discriminate. }
      destruct (rejected API_KEY request) eqn:Hr.
      { rewrite (app_rejected_eq API_KEY request w Hr). right. reflexivity. }
      pose proof (answer_create request user (disk w) E H) as Hans.
      destruct (encode_fields user) as [f|] eqn:Hef.
      - destruct (app_answered API_KEY request w _ _ Hr Hp Hans) as (Hs & Hc & _).
        unfold assigned_id in Ha. simpl in Ha. rewrite E, Hc, Hs in Ha.
        simpl in Ha. discriminate.
      - rewrite (app_faulted API_KEY request w _ _ Hr Hp Hans). left. reflexivity. }
    all: destruct (app_file request w H) as [->|Hf]; [right; reflexivity|].
    all: rewrite E in Hf; unfold content_after in Hf.
    all: destruct (file_after _ _) as [t'|] eqn:Hfa; [right | left; exact Hf].
    all: unfold upcoming_id, file_document at 1; rewrite Hf.
    all: rewrite (next_id_file_after _ _ _ Hfa); reflexivity.
Qed.

(** A request served from a corrupt file leaves it corrupt: a readable file
    afterwards was readable before. *)
Lemma app_readable request w :
  readable (disk (app API_KEY request w).2) -> readable (disk w).
Proof.
  intros H. destruct (readable_dec (disk w)) as [H0|H0]; [exact H0|].
  destruct (app_corrupt request w H0) as [Hd _]. rewrite Hd in H.
  exact H.
Qed.

Lemma serve_readable requests w :
  readable (disk (serve API_KEY requests w).2) -> readable (disk w).
Proof.
  intros H. destruct (readable_dec (disk w)) as [H0|H0]; [exact H0|].
  destruct (serve_corrupt requests w H0) as [Hd _]. rewrite Hd in H.
  exact H.
Qed.

Lemma serve_cons request rest w :
  serve API_KEY (request :: rest) w
  = ((request, (app API_KEY request w).1)
       :: (serve API_KEY rest (app API_KEY request w).2).1,
     (serve API_KEY rest (app API_KEY request w).2).2).
Proof.
  simpl. destruct (app API_KEY request w) as [response w1]. simpl.
  destruct (serve API_KEY rest w1) as [log w2]. reflexivity.
Qed.

Lemma assigned_ids_cons request response log :
  assigned_ids ((request, response) :: log)
  = match assigned_id (request, response) with
    | Some i => i :: assigned_ids log
    | None => assigned_ids log
    end.
Proof. reflexivity. Qed.

(** Along a sequence of requests the assigned ids start at the counter and
    increase; where the file is readable at the end, the counter has not
    gone down and exceeds them all. *)
Lemma serve_counter requests w :
  Forall (fun i => upcoming_id (disk w) <= i)
    (assigned_ids (serve API_KEY requests w).1)
  /\ StronglySorted Z.lt (assigned_ids (serve API_KEY requests w).1)
  /\ (readable (disk (serve API_KEY requests w).2) ->
      upcoming_id (disk w) <= upcoming_id (disk (serve API_KEY requests w).2)
      /\ Forall (fun i => i < upcoming_id (disk (serve API_KEY requests w).2))
           (assigned_ids (serve API_KEY requests w).1)).
Proof.
  revert w. induction requests as [|request rest IH]; intros w.
  - simpl. split; [constructor|]. split; [constructor|].
    intros _. split; [lia | constructor].
  - rewrite serve_cons. cbn [fst snd]. rewrite assigned_ids_cons.
    pose proof (app_counter request w) as Hstep.
    destruct (IH (app API_KEY request w).2) as (Hge & Hsorted & Hend).
    destruct (assigned_id _) as [i|].
    + destruct Hstep as (-> & Hnext & _). rewrite Hnext in *. split.
      { constructor; [lia|]. eapply Forall_impl; [exact Hge|].
        simpl. intros; lia. }
      split.
      { constructor; [exact Hsorted|]. eapply Forall_impl; [exact Hge|].
        simpl. intros; lia. }
      intros Hr. destruct (Hend Hr) as [Hle Hlt]. split; [lia|].
      constructor; [lia | exact Hlt].
    + destruct Hstep as [Hc|Hsame].
      * destruct (serve_corrupt rest _ Hc) as [Hd Ha]. rewrite Ha.
        split; [constructor|]. split; [constructor|].
        intros Hr. rewrite Hd in Hr. contradiction.
      * rewrite Hsame in *. auto.
Qed.

(** The assigned ids are consecutive. *)
Lemma serve_consecutive requests w :
  assigned_ids (serve API_KEY requests w).1
  = seqZ (upcoming_id (disk w))
      (Z.of_nat (length (assigned_ids (serve API_KEY requests w).1)))
  /\ (readable (disk (serve API_KEY requests w).2) ->
      upcoming_id (disk (serve API_KEY requests w).2)
      = upcoming_id (disk w)
        + Z.of_nat (length (assigned_ids (serve API_KEY requests w).1))).
Proof.
  revert w. induction requests as [|request rest IH]; intros w.
  - simpl. split; [reflexivity | intros _; lia].
  - rewrite serve_cons. cbn [fst snd]. rewrite assigned_ids_cons.
    pose proof (app_counter request w) as Hstep.
    destruct (IH (app API_KEY request w).2) as (Hids & Hend).
    destruct (assigned_id _) as [i|].
    + destruct Hstep as (-> & Hnext & _). rewrite Hnext in *.
      simpl length. split.
      * rewrite seqZ_cons by lia. f_equal.
        replace (Z.pred (Z.of_nat (S (length (assigned_ids
                  (serve API_KEY rest (app API_KEY request w).2).1)))))
          with (Z.of_nat (length (assigned_ids
                  (serve API_KEY rest (app API_KEY request w).2).1))) by lia.
        exact Hids.
      * intros Hr. rewrite (Hend Hr). lia.
    + destruct Hstep as [Hc|Hsame].
      * destruct (serve_corrupt rest _ Hc) as [Hd Ha]. rewrite Ha.
        split; [reflexivity|]. intros Hr. rewrite Hd in Hr. contradiction.
      * rewrite Hsame in *. auto.
Qed.

(** A property of documents that the initial document has and every
    handler keeps holds of whatever a readable file holds after a sequence
    of requests. *)
Lemma app_invariant (P : Document string -> Prop) request w :
  (forall r t t', P t -> file_after r t = Some t' -> P t') ->
  P (file_document (disk w)) ->
  readable (disk (app API_KEY request w).2) ->
  P (file_document (disk (app API_KEY request w).2)).
Proof.
  intros Hkeep HP Hr. pose proof (app_readable request w Hr) as H.
  destruct (app_file request w H) as [Hd|Hf]; [rewrite Hd; exact HP|].
  unfold content_after in Hf. unfold file_document at 1. rewrite Hf.
  destruct (file_after _ _) as [t'|] eqn:Hfa.
  - exact (Hkeep _ _ _ HP Hfa).
  - unfold readable in Hr. rewrite Hf in Hr. contradiction.
Qed.

Lemma serve_invariant (P : Document string -> Prop) requests w :
  (forall r t t', P t -> file_after r t = Some t' -> P t') ->
  P (file_document (disk w)) ->
  readable (disk (serve API_KEY requests w).2) ->
  P (file_document (disk (serve API_KEY requests w).2)).
Proof.
  intros Hkeep. revert w.
  induction requests as [|request rest IH]; intros w HP.
  - simpl. intros _. exact HP.
  - rewrite serve_cons. cbn [fst snd]. intros Hr.
    apply IH; [|exact Hr].
    apply app_invariant; [exact Hkeep | exact HP |].
    exact (serve_readable rest _ Hr).
Qed.

Lemma ids_inserted user_id (f : UserIn string) t i old :
  users t !! i = Some old -> id old = user_id ->
  ids {| users := <[i := {| id := user_id; fields := f |}]> (users t);
         next_id := next_id t |} = ids t.
Proof. intros Hi Hid. unfold ids. simpl. exact (ids_after_insert _ _ _ _ _ Hi Hid). Qed.

Lemma ids_deleted t i :
  ids {| users := delete i (users t); next_id := next_id t |}
  = delete i (ids t).
Proof. unfold ids. simpl. apply (list_fmap_delete id). Qed.

Lemma ids_appended t n (f : UserIn string) k :
  ids {| users := users t ++ [{| id := n; fields := f |}]; next_id := k |}
  = (ids t ++ [n])%list.
Proof. unfold ids. simpl. rewrite map_app. reflexivity. Qed.

(** Every handler keeps the store invariant. *)
Lemma file_after_well_formed r t t' :
  well_formed t -> file_after r t = Some t' -> well_formed t'.
Proof.
  intros (n & Hn & Hnd & Hlt).
  destruct r; simpl; try (intros [= <-]; exists n; auto; fail).
  - destruct (encode_fields user) as [f|]; [|discriminate]. intros [= <-].
    rewrite Hn. simpl. exists (n + 1). split; [reflexivity|].
    rewrite ids_appended. split.
    + apply NoDup_app. split; [exact Hnd|]. split; [|apply NoDup_singleton].
      intros x Hx Hx'. apply list_elem_of_singleton in Hx'. subst x.
      rewrite Forall_forall in Hlt. specialize (Hlt n Hx). lia.
    + apply Forall_app. split.
      * eapply Forall_impl; [exact Hlt|]. simpl. intros; lia.
      * constructor; [lia | constructor].
  - destruct (list_find _ _) as [[i u]|] eqn:E; [|intros [= <-]; exists n; auto].
    destruct (encode_fields user) as [f|]; [|discriminate]. intros [= <-].
    apply find_id_Some in E as (Hi & Hid & _).
    exists n. rewrite (ids_inserted _ _ _ _ _ Hi Hid). auto.
  - destruct (list_find _ _) as [[i u]|] eqn:E; intros [= <-]; [|exists n; auto].
    exists n. rewrite ids_deleted. split; [exact Hn|]. split.
    + eapply sublist_NoDup; [exact Hnd | apply sublist_delete].
    + apply Forall_delete. exact Hlt.
Qed.

Lemma sorted_sublist (l1 l2 : list Z) :
  StronglySorted Z.lt l2 -> l1 `sublist_of` l2 -> StronglySorted Z.lt l1.
Proof.
  intros Hs Hsub. induction Hsub as [|x l1 l2 Hsub IH|x l1 l2 Hsub IH].
  - constructor.
  - apply StronglySorted_cons in Hs as [Hx Hs].
    apply StronglySorted_cons. split; [|exact (IH Hs)].
    rewrite Forall_forall in *. intros y Hy.
    apply Hx. eapply elem_of_sublist; [exact Hy | exact Hsub].
  - apply StronglySorted_cons in Hs as [_ Hs]. exact (IH Hs).
Qed.

(** Every handler keeps the records in increasing order of id. *)
Lemma file_after_ordered r t t' :
  ordered t -> file_after r t = Some t' -> ordered t'.
Proof.
  intros (n & Hn & Hs & Hlt).
  destruct r; simpl; try (intros [= <-]; exists n; auto; fail).
  - destruct (encode_fields user) as [f|]; [|discriminate]. intros [= <-].
    rewrite Hn. simpl. exists (n + 1). split; [reflexivity|].
    rewrite ids_appended. split.
    + apply StronglySorted_app_2; [|exact Hs|repeat constructor].
      intros x1 x2 H1 H2. apply list_elem_of_singleton in H2. subst x2.
      rewrite Forall_forall in Hlt. exact (Hlt x1 H1).
    + apply Forall_app. split.
      * eapply Forall_impl; [exact Hlt|]. simpl. intros; lia.
      * constructor; [lia | constructor].
  - destruct (list_find _ _) as [[i u]|] eqn:E; [|intros [= <-]; exists n; auto].
    destruct (encode_fields user) as [f|]; [|discriminate]. intros [= <-].
    apply find_id_Some in E as (Hi & Hid & _).
    exists n. rewrite (ids_inserted _ _ _ _ _ Hi Hid). auto.
  - destruct (list_find _ _) as [[i u]|] eqn:E; intros [= <-]; [|exists n; auto].
    exists n. rewrite ids_deleted. split; [exact Hn|]. split.
    + eapply sorted_sublist; [exact Hs | apply sublist_delete].
    + apply Forall_delete. exact Hlt.
Qed.

(** No handler invents an id: an id left in the file was there before, or
    is the counter that a create has just used. *)
Lemma file_after_ids r t t' i :
  file_after r t = Some t' ->
  i ∈ ids t' ->
  i ∈ ids t
  \/ (exists user, r = POST_users user) /\ i = default 1 (next_id t).
Proof.
  destruct r; simpl; try (intros [= <-]; auto; fail).
  - destruct (encode_fields user) as [f|]; [|discriminate]. intros [= <-].
    rewrite ids_appended. intros [H|H]%elem_of_app; [left; exact H|right].
    apply list_elem_of_singleton in H. split; [eauto | exact H].
  - destruct (list_find _ _) as [[j u]|] eqn:E; [|intros [= <-]; auto].
    destruct (encode_fields user) as [f|]; [|discriminate]. intros [= <-].
    apply find_id_Some in E as (Hi & Hid & _).
    rewrite (ids_inserted _ _ _ _ _ Hi Hid). auto.
  - destruct (list_find _ _) as [[j u]|] eqn:E; intros [= <-]; [|auto].
    rewrite ids_deleted. intros H. left.
    eapply elem_of_sublist; [exact H | apply sublist_delete].
Qed.

(** One request: an id in a readable file afterwards was there before or
    has just been assigned. *)
Lemma app_ids request w i :
  readable (disk (app API_KEY request w).2) ->
  i ∈ ids (file_document (disk (app API_KEY request w).2)) ->
  i ∈ ids (file_document (disk w))
  \/ assigned_id (request, (app API_KEY request w).1) = Some i.
Proof.
  intros Hr Hi. pose proof (app_readable request w Hr) as H.
  destruct (rejected API_KEY request) eqn:Hrej.
  { left. rewrite (app_rejected_eq API_KEY request w Hrej) in Hi. exact Hi. }
  destruct (app_file request w H) as [Hd|Hf].
  { left. rewrite Hd in Hi. exact Hi. }
  unfold content_after in Hf. unfold file_document at 1 in Hi.
  rewrite Hf in Hi. destruct (file_after _ _) as [t'|] eqn:Hfa.
  2: { unfold readable in Hr. rewrite Hf in Hr. contradiction. }
  destruct (file_after_ids _ _ _ i Hfa Hi) as [Hin|[[user E] ->]];
    [left; exact Hin | right].
  assert (preflighted request = false) as Hp.
  { apply handled_not_preflighted. intros m p a. rewrite E. discriminate. }
  pose proof (answer_create request user (disk w) E H) as Hans.
  rewrite E in Hfa. simpl in Hfa.
  destruct (encode_fields user) as [f|]; [|discriminate].
  destruct (app_answered API_KEY request w _ _ Hrej Hp Hans) as (Hs & Hc & _).
  unfold assigned_id. simpl. rewrite E, Hc, Hs. reflexivity.
Qed.

Lemma serve_ids requests w i :
  readable (disk (serve API_KEY requests w).2) ->
  i ∈ ids (file_document (disk (serve API_KEY requests w).2)) ->
  i ∈ ids (file_document (disk w))
  \/ i ∈ assigned_ids (serve API_KEY requests w).1.
Proof.
  revert w. induction requests as [|request rest IH]; intros w.
  - simpl. auto.
  - rewrite serve_cons. cbn [fst snd]. rewrite assigned_ids_cons.
    intros Hr Hi. destruct (IH _ Hr Hi) as [H1|H1].
    + destruct (app_ids request w i (serve_readable rest _ Hr) H1) as [H2|H2].
      * left; exact H2.
      * right. rewrite H2. apply list_elem_of_here.
    + right. destruct (assigned_id _);
        [apply list_elem_of_further|]; exact H1.
Qed.

End Sequences.

(** ** The claims *)

Section Claims.

Variable API_KEY : string.

Implicit Types (request : Request) (w : World) (s : Disk) (d : Document string).

Lemma crud_POST request user : route request = POST_users user -> crud request = true.
Proof. unfold crud. now intros ->. Qed.

Lemma crud_PUT request user_id user :
  route request = PUT_user user_id user -> crud request = true.
Proof. unfold crud. now intros ->. Qed.

Lemma crud_DELETE request user_id :
  route request = DELETE_user user_id -> crud request = true.
Proof. unfold crud. now intros ->. Qed.

Lemma crud_GET request user_id :
  route request = GET_user user_id -> crud request = true.
Proof. unfold crud. now intros ->. Qed.

Lemma crud_LIST request : route request = GET_users -> crud request = true.
Proof. unfold crud. now intros ->. Qed.

(** A CRUD request that the guard lets through and whose handling ends
    without an unhandled exception. *)
Lemma app_crud request w response s' :
  crud request = true ->
  rejected API_KEY request = false ->
  answer request (disk w) = (Return response, s') ->
  status (app API_KEY request w).1 = status response
  /\ content (app API_KEY request w).1 = content response
  /\ disk (app API_KEY request w).2 = s'.
Proof.
  intros Hc Hr Ha.
  exact (app_answered API_KEY request w _ _ Hr (crud_not_preflighted _ Hc) Ha).
Qed.

(** A CRUD request that the guard lets through and whose handling raises. *)
Lemma app_crud_faulted request w e s' :
  crud request = true ->
  rejected API_KEY request = false ->
  answer request (disk w) = (Raise e, s') ->
  app API_KEY request w
  = (PlainTextResponse 500 "Internal Server Error", after_fault w s').
Proof.
  intros Hc Hr Ha.
  exact (app_faulted API_KEY request w _ _ Hr (crud_not_preflighted _ Hc) Ha).
Qed.

Lemma decode_document_default d :
  decode_document d = default_document -> d = default_document.
Proof.
  destruct d as [l n]. unfold decode_document, default_document. simpl.
  intros [= Hl ->]. apply fmap_nil_inv in Hl. subst l. reflexivity.
Qed.

Lemma loaded_default s :
  loaded s = default_document -> file_document s = default_document.
Proof. apply decode_document_default. Qed.

Lemma next_id_loaded s : next_id (loaded s) = next_id (file_document s).
Proof. reflexivity. Qed.

Lemma users_loaded_none s user_id :
  Forall (fun u => id u <> user_id) (users (loaded s))
  <-> Forall (fun u => id u <> user_id) (users (file_document s)).
Proof.
  unfold loaded, decode_document. simpl. rewrite Forall_fmap. reflexivity.
Qed.

(** C1. Each successful [POST /users], one answered 201, returns a record
    whose id is the [next_id] of the document at the start of the call and
    leaves [next_id] at that value plus one; and in every sequence of
    requests, from any starting world, each id assigned is strictly greater
    than all ids assigned before it, whatever was deleted in between. *)
Theorem create_assigns_next_id request user w n :
  route request = POST_users user ->
  status (app API_KEY request w).1 = 201 ->
  next_id (loaded (disk w)) = Some n ->
  ((exists f,
      encode_fields user = Some f
      /\ content (app API_KEY request w).1
         = Json (user_json {| id := n; fields := f |}))
   /\ assigned_id (request, (app API_KEY request w).1) = Some n
   /\ create_user user (disk w)
      = (Return {| id := n; fields := user |}, disk (app API_KEY request w).2)
   /\ next_id (loaded (disk (app API_KEY request w).2)) = Some (n + 1))
  /\ (forall requests w0,
        StronglySorted Z.lt (assigned_ids (serve API_KEY requests w0).1)).
Proof.
  intros E Hs Hn. split.
  - destruct (app_created API_KEY request user w E Hs)
      as (_ & H & f & Hf & Hc & Hd).
    rewrite next_id_loaded in Hn.
    assert (upcoming_id (disk w) = n) as Hu
      by (unfold upcoming_id; rewrite Hn; reflexivity).
    rewrite Hu in *. split; [exists f; split; assumption|].
    split; [unfold assigned_id; simpl; rewrite E, Hc, Hs; reflexivity|].
    split.
    + rewrite (create_user_eq user (disk w) H), Hf, Hd, Hn. reflexivity.
    + rewrite Hd. reflexivity.
  - intros requests w0. apply serve_counter.
Qed.

(** C2. After any sequence of requests from the initial document that
    leaves a file that can be read, the records of the store have distinct
    ids, and [next_id] is strictly greater than every id ever assigned and
    than every id in the store. *)
Theorem store_invariant requests w :
  readable (disk w) ->
  loaded (disk w) = default_document ->
  readable (disk (serve API_KEY requests w).2) ->
  NoDup (ids (loaded (disk (serve API_KEY requests w).2)))
  /\ exists n,
       next_id (loaded (disk (serve API_KEY requests w).2)) = Some n
       /\ Forall (fun i => i < n) (assigned_ids (serve API_KEY requests w).1)
       /\ Forall (fun i => i < n)
            (ids (loaded (disk (serve API_KEY requests w).2))).
Proof.
  intros _ H0 Hr. apply loaded_default in H0.
  assert (well_formed (file_document (disk w))) as Hwf.
  { rewrite H0. exists 1. split; [reflexivity|]. split; constructor. }
  destruct (serve_invariant API_KEY well_formed requests w
              file_after_well_formed Hwf Hr) as (n & Hn & Hnd & Hlt).
  rewrite ids_loaded, next_id_loaded.
  split; [exact Hnd|]. exists n. split; [exact Hn|]. split; [|exact Hlt].
  destruct (serve_counter API_KEY requests w) as (_ & _ & Hend).
  destruct (Hend Hr) as [_ Hall].
  unfold upcoming_id in Hall. rewrite Hn in Hall. exact Hall.
Qed.

(** The handling of a request raises an exception that nothing catches
    only for a CRUD request, and then exactly when the file is corrupt or
    the dump of the new document fails. *)
Lemma faults_spec request s :
  faults request s = true
  <-> crud request = true
      /\ (data_file s = Some Corrupt
          \/ file_after (route request) (file_document s) = None).
Proof.
  unfold faults. destruct (crud request) eqn:Hc.
  2: { destruct (answer_other request s Hc) as [r ->].
       split; [discriminate | intros [? _]; discriminate]. }
  destruct (readable_dec s) as [H|H].
  2: { rewrite (answer_corrupt _ _ Hc H). split; auto. }
  assert (forall P : Prop, (data_file s = Some Corrupt \/ P) <-> P) as Hor.
  { intros P. split; [intros [Hx|Hx]; [contradiction | exact Hx] | auto]. }
  pose proof (answer_file request s Hc H) as Hf. unfold content_after in Hf.
  assert (forall c, data_file (_ensure_db s).2 = Some c -> c <> Corrupt) as He.
  { intros c Hx. rewrite (ensure_loaded s H) in Hx. injection Hx as <-.
    discriminate. }
  unfold crud in Hc. destruct (route request) eqn:E; try discriminate;
    simpl in *.
  - rewrite (answer_list _ _ E H). split; [discriminate|].
    intros [_ [Hx|Hx]]; [contradiction | discriminate].
  - rewrite (answer_get _ _ _ E H).
    destruct (list_find _ _) as [[i u]|];
      (split; [discriminate | intros [_ [Hx|Hx]]; [contradiction | discriminate]]).
  - rewrite (answer_create _ _ _ E H).
    destruct (encode_fields user);
      (split; [try discriminate; auto
              | intros [_ [Hx|Hx]]; [contradiction | try discriminate; auto]]).
  - rewrite (answer_update _ _ _ _ E H).
    destruct (list_find _ _) as [[i u]|]; [destruct (encode_fields user)|];
      (split; [try discriminate; auto
              | intros [_ [Hx|Hx]]; [contradiction | try discriminate; auto]]).
  - rewrite (answer_delete _ _ _ E H).
    destruct (list_find _ _) as [[i u]|];
      (split; [discriminate | intros [_ [Hx|Hx]]; [contradiction | discriminate]]).
Qed.

(** C3, as the code has it. [admin_guard] is registered last and therefore
    is the outermost middleware, upstream of [timing_header], and
    [timing_header] sets its header only after [call_next] has returned.  A
    request that the guard rejects is answered 401 without an
    [X-Process-Time] header; a request whose handling raises (a CRUD
    request on a corrupt file, or with a body that cannot be dumped) is
    answered 500 by [ServerErrorMiddleware], without the header either;
    every other response, 404s included, carries an [X-Process-Time]
    header that matches [^\d+\.\d{2}ms$]. *)
Theorem timing_header_behind_guard request w :
  app API_KEY
  = ServerErrorMiddleware
      (http (admin_guard API_KEY)
         (http timing_header
            (CORSMiddleware (ExceptionMiddleware router))))
  /\ (if rejected API_KEY request
      then status (app API_KEY request w).1 = 401
           /\ resp_headers (app API_KEY request w).1 !! "X-Process-Time" = None
      else if negb (preflighted request) && faults request (disk w)
      then status (app API_KEY request w).1 = 500
           /\ content (app API_KEY request w).1 = Text "Internal Server Error"
           /\ resp_headers (app API_KEY request w).1 !! "X-Process-Time" = None
      else exists v,
             resp_headers (app API_KEY request w).1 !! "X-Process-Time" = Some v
             /\ matches_process_time v = true)
  /\ (faults request (disk w) = true
      <-> crud request = true
          /\ (data_file (disk w) = Some Corrupt
              \/ file_after (route request) (file_document (disk w)) = None)).
Proof.
  split; [apply app_stack|]. split; [|apply faults_spec].
  rewrite app_eq. unfold faults.
  destruct (rejected API_KEY request); [split; reflexivity|].
  destruct (preflighted request); simpl; [apply stamped|].
  destruct (answer request (disk w)) as [[response|e] s']; simpl.
  - apply stamped.
  - repeat split; reflexivity.
Qed.

(** C4, where the code departs from it.  The guard tests the path of the
    URL that Starlette rebuilds from the [Host] header, not the path that
    is routed: [GET /admin/secret] sent with [Host: a?] and without
    [X-API-Key] is routed to [admin_secret] and answered 200 with the
    welcome body, whatever the key of the application is. *)
Theorem admin_guard_bypass w :
  route (with_host_query GET_admin_secret) = GET_admin_secret
  /\ route_path (route (with_host_query GET_admin_secret)) = "/admin/secret"
  /\ headers (with_host_query GET_admin_secret) !! "X-API-Key" = None
  /\ admin_guard API_KEY (with_host_query GET_admin_secret)
     = (fun call_next => call_next (with_host_query GET_admin_secret))
  /\ status (app API_KEY (with_host_query GET_admin_secret) w).1 = 200
  /\ content (app API_KEY (with_host_query GET_admin_secret) w).1
     = Json (JObj [("ok", JBool true); ("msg", JStr "Welcome, admin.")]).
Proof.
  split; [reflexivity|]. split; [reflexivity|]. split; [reflexivity|].
  split; [reflexivity|].
  assert (rejected API_KEY (with_host_query GET_admin_secret) = false) as Hr
    by reflexivity.
  assert (preflighted (with_host_query GET_admin_secret) = false) as Hp
    by reflexivity.
  destruct (app_answered API_KEY (with_host_query GET_admin_secret) w _ _ Hr Hp
              eq_refl) as (Hs & Hc & _).
  rewrite Hs, Hc. split; reflexivity.
Qed.

(** C5. [PUT /users/{id}] on an id that no record of the document carries
    answers 404 with [{"detail": "User not found"}] and leaves the disk as
    it was: same document, and the file was not opened for writing. *)
Theorem update_unknown_id request user_id user w d :
  route request = PUT_user user_id user ->
  data_file (disk w) = Some (Holds d) ->
  Forall (fun u => id u <> user_id) (users d) ->
  update_user user_id user (disk w)
  = (Raise (HTTPException 404 "User not found"), disk w)
  /\ (rejected API_KEY request = false ->
      status (app API_KEY request w).1 = 404
      /\ content (app API_KEY request w).1
         = Json (JObj [("detail", JStr "User not found")]))
  /\ disk (app API_KEY request w).2 = disk w.
Proof.
  intros E Hd Hnone. apply find_id_None in Hnone.
  pose proof (readable_holds _ _ Hd) as H.
  pose proof (answer_update request user_id user (disk w) E H) as Ha.
  rewrite (update_user_eq user_id user (disk w) H).
  rewrite (file_document_holds _ _ Hd), Hnone, (ensure_present _ _ Hd) in *.
  split; [reflexivity|]. split.
  - intros Hr.
    destruct (app_crud request w _ _ (crud_PUT _ _ _ E) Hr Ha) as (Hs & Hc & _).
    rewrite Hs, Hc. split; reflexivity.
  - destruct (app_disk API_KEY request w) as [Hk|Hk]; rewrite Hk;
      [|rewrite Ha]; reflexivity.
Qed.


(** After the first record with a given id is removed from a list of
    records with distinct ids, no record carries that id. *)
Lemma delete_forgets_id {T} (l : list (UserOut T)) i u :
  NoDup (map id l) ->
  l !! i = Some u ->
  Forall (fun x => id x <> id u) (delete i l).
Proof.
  intros Hnd Hi. apply Forall_lookup. intros j x Hj Heq.
  rewrite list_lookup_delete in Hj.
  assert (map id l !! i = Some (id u)) as H1.
  { change (map id l) with (id <$> l). rewrite list_lookup_fmap, Hi. reflexivity. }
  set (j' := if decide (j < i)%nat then j else S j) in *.
  assert (map id l !! j' = Some (id u)) as H2.
  { change (map id l) with (id <$> l). rewrite list_lookup_fmap, Hj. simpl.
    now rewrite Heq. }
  pose proof (NoDup_lookup _ _ _ _ Hnd H1 H2) as Hij.
  subst j'. destruct (decide (j < i)%nat); lia.
Qed.

(** C7. [DELETE /users/{id}] on an id that some record carries answers 204
    with an empty body and writes the document back without that record
    (the first one with the id), all other records kept in order; the ids
    of a store document being distinct, a [GET /users/{id}] that follows
    answers 404 with [{"detail": "User not found"}].  On an id that no
    record carries, [DELETE] answers 404. *)
Theorem delete_then_get request user_id w d :
  route request = DELETE_user user_id ->
  data_file (disk w) = Some (Holds d) ->
  rejected API_KEY request = false ->
  (Exists (has_id user_id) (users d) ->
   exists i u,
     users d !! i = Some u
     /\ id u = user_id
     /\ status (app API_KEY request w).1 = 204
     /\ content (app API_KEY request w).1 = Empty
     /\ users d = (take i (users d) ++ u :: drop (S i) (users d))%list
     /\ data_file (disk (app API_KEY request w).2)
        = Some (Holds {| users := (take i (users d) ++ drop (S i) (users d))%list;
                         next_id := next_id d |})
     /\ (NoDup (ids d) ->
         forall request',
           route request' = GET_user user_id ->
           rejected API_KEY request' = false ->
           status (app API_KEY request' (app API_KEY request w).2).1 = 404
           /\ content (app API_KEY request' (app API_KEY request w).2).1
              = Json (JObj [("detail", JStr "User not found")])))
  /\ (Forall (fun u => id u <> user_id) (users d) ->
      status (app API_KEY request w).1 = 404
      /\ content (app API_KEY request w).1
         = Json (JObj [("detail", JStr "User not found")])).
Proof.
  intros E Hd Hr.
  pose proof (readable_holds _ _ Hd) as H.
  pose proof (answer_delete request user_id (disk w) E H) as Ha.
  rewrite (file_document_holds _ _ Hd) in Ha.
  split.
  - intros Hsome.
    destruct (find_id_Exists _ _ Hsome) as (i & u & Hfind).
    destruct (find_id_Some _ _ _ _ Hfind) as (Hi & Hid & _).
    exists i, u. rewrite Hfind in Ha.
    destruct (app_crud request w _ _ (crud_DELETE _ _ E) Hr Ha) as (Hs & Hc & Hk).
    rewrite Hs, Hc, Hk. simpl. rewrite <- delete_take_drop.
    split; [exact Hi|]. split; [exact Hid|].
    split; [reflexivity|]. split; [reflexivity|].
    split; [symmetry; apply take_drop_middle; exact Hi|].
    split; [reflexivity|].
    intros Hnd request' E' Hr'.
    set (w1 := (app API_KEY request w).2) in *.
    assert (data_file (disk w1)
            = Some (Holds {| users := delete i (users d); next_id := next_id d |}))
      as Hd1 by (rewrite Hk; reflexivity).
    pose proof (answer_get request' user_id (disk w1) E' (readable_holds _ _ Hd1))
      as Ha'.
    rewrite (file_document_holds _ _ Hd1) in Ha'. simpl in Ha'.
    pose proof (delete_forgets_id _ _ _ Hnd Hi) as Hgone.
    rewrite Hid in Hgone. apply find_id_None in Hgone. rewrite Hgone in Ha'.
    destruct (app_crud request' w1 _ _ (crud_GET _ _ E') Hr' Ha') as (Hs' & Hc' & _).
    rewrite Hs', Hc'. split; reflexivity.
  - intros Hnone. apply find_id_None in Hnone. rewrite Hnone in Ha.
    destruct (app_crud request w _ _ (crud_DELETE _ _ E) Hr Ha) as (Hs & Hc & _).
    rewrite Hs, Hc. split; reflexivity.
Qed.

(** C8. [_ensure_db] writes the default document when the file is absent
    and does nothing when the file exists; running it twice is the same as
    running it once; the first [load_db] on an absent file returns the
    default document. *)
Theorem ensure_idempotent s :
  (_ensure_db ;; _ensure_db) s = _ensure_db s
  /\ _ensure_db (_ensure_db s).2 = (Return tt, (_ensure_db s).2)
  /\ (data_file s = None ->
      _ensure_db s
      = (Return tt,
         {| data_file := Some (Holds default_document);
            writes := S (writes s) |})
      /\ load_db s
         = (Return default_document,
            {| data_file := Some (Holds default_document);
               writes := S (writes s) |}))
  /\ (is_Some (data_file s) -> _ensure_db s = (Return tt, s)).
Proof.
  assert (_ensure_db (_ensure_db s).2 = (Return tt, (_ensure_db s).2)) as H2.
  { destruct (data_file s) as [c|] eqn:E.
    - rewrite (ensure_present s c E). simpl. apply (ensure_present s c E).
    - rewrite (ensure_absent s E). reflexivity. }
  split; [|split; [exact H2|split]].
  - unfold bind at 1. destruct (_ensure_db s) as [[[]|e] s'] eqn:E.
    + simpl in H2. exact H2.
    + reflexivity.
  - intros Hnone. split; [apply ensure_absent; exact Hnone|].
    rewrite (load_db_eq s (readable_absent s Hnone)), (ensure_absent s Hnone).
    unfold loaded, file_document. rewrite Hnone. reflexivity.
  - intros [c Hc]. apply (ensure_present s c Hc).
Qed.

(** C9. When the document has no [next_id], [create_user] gives the new
    record id 1 and sets [next_id] to 2, whatever ids the records carry; if
    a record already carries id 1, the ids of the document are no longer
    distinct afterwards. *)
Theorem create_without_next_id request user f w d :
  route request = POST_users user ->
  data_file (disk w) = Some (Holds d) ->
  next_id d = None ->
  encode_fields user = Some f ->
  create_user user (disk w)
  = (Return {| id := 1; fields := user |},
     {| data_file :=
          Some (Holds {| users := users d ++ [{| id := 1; fields := f |}];
                         next_id := Some 2 |});
        writes := S (writes (disk w)) |})
  /\ (rejected API_KEY request = false ->
      status (app API_KEY request w).1 = 201
      /\ content (app API_KEY request w).1
         = Json (user_json {| id := 1; fields := f |})
      /\ disk (app API_KEY request w).2 = (create_user user (disk w)).2
      /\ (Exists (has_id 1) (users d) ->
          ~ NoDup (ids (loaded (disk (app API_KEY request w).2))))).
Proof.
  intros E Hd Hn Hf.
  pose proof (readable_holds _ _ Hd) as H.
  pose proof (answer_create request user (disk w) E H) as Ha.
  rewrite (create_user_eq user (disk w) H). unfold upcoming_id in Ha.
  rewrite (file_document_holds _ _ Hd), Hn, Hf, (ensure_present _ _ Hd) in *.
  simpl in *. split; [reflexivity|]. intros Hr.
  destruct (app_crud request w _ _ (crud_POST _ _ E) Hr Ha) as (Hs & Hc & Hk).
  rewrite Hs, Hc, Hk. repeat split; try reflexivity.
  intros Hex Hnd. rewrite ids_loaded in Hnd.
  unfold file_document in Hnd. simpl in Hnd. rewrite ids_appended in Hnd.
  apply NoDup_app in Hnd as (_ & Hdisj & _).
  apply Exists_exists in Hex as (u & Hu & Hid). unfold has_id in Hid.
  apply (Hdisj 1).
  - rewrite <- Hid. apply list_elem_of_fmap_2. exact Hu.
  - apply list_elem_of_singleton. reflexivity.
Qed.

(** C10. [DELETE /users/{id}] on an id that no record carries answers 404
    without calling [save_db]: the disk is left as [load_db] left it, the
    store document is the same, and when the backing file exists it is not
    opened for writing at all. *)
Theorem delete_unknown_id request user_id w :
  route request = DELETE_user user_id ->
  readable (disk w) ->
  Forall (fun u => id u <> user_id) (users (loaded (disk w))) ->
  delete_user user_id (disk w)
  = (Raise (HTTPException 404 "User not found"), (load_db (disk w)).2)
  /\ (rejected API_KEY request = false ->
      status (app API_KEY request w).1 = 404
      /\ disk (app API_KEY request w).2 = (load_db (disk w)).2)
  /\ loaded (disk (app API_KEY request w).2) = loaded (disk w)
  /\ (is_Some (data_file (disk w)) ->
      disk (app API_KEY request w).2 = disk w
      /\ writes (disk (app API_KEY request w).2) = writes (disk w)).
Proof.
  intros E H Hnone. apply users_loaded_none, find_id_None in Hnone.
  pose proof (answer_delete request user_id (disk w) E H) as Ha.
  rewrite (delete_user_eq user_id (disk w) H), (load_db_eq (disk w) H).
  rewrite Hnone in *. simpl.
  assert (disk (app API_KEY request w).2 = disk w
          \/ disk (app API_KEY request w).2 = (_ensure_db (disk w)).2) as Hk.
  { destruct (app_disk API_KEY request w) as [Hk|Hk];
      [left; exact Hk | right; rewrite Hk, Ha; reflexivity]. }
  split; [reflexivity|]. split; [|split].
  - intros Hr.
    destruct (app_crud request w _ _ (crud_DELETE _ _ E) Hr Ha) as (Hs & _ & Hk').
    rewrite Hs, Hk'. split; reflexivity.
  - destruct Hk as [-> | ->]; [reflexivity|].
    unfold loaded. rewrite file_document_ensure. reflexivity.
  - intros [c Hc]. rewrite (ensure_present _ _ Hc) in Hk. simpl in Hk.
    destruct Hk as [-> | ->]; split; reflexivity.
Qed.

End Claims.

(** ** Instances on sample data *)

(** The scenario of the specification, from the absent file: two creates
    get ids 1 and 2, the delete of 1 answers 204, the lookup of 1 answers
    404, and the listing shows the record with id 2 only. *)
Example scenario :
  let requests :=
    [request_of (POST_users alice); request_of (POST_users alice);
     request_of (DELETE_user 1); request_of (GET_user 1); request_of GET_users] in
  map (fun x => (status x.2, content x.2)) (serve "secret" requests (world_of None)).1
  = [(201, Json (user_json {| id := 1; fields := alice' |}));
     (201, Json (user_json {| id := 2; fields := alice' |}));
     (204, Empty);
     (404, Json (JObj [("detail", JStr "User not found")]));
     (200, Json (JArr [user_json {| id := 2; fields := alice' |}]))].
Proof. reflexivity. Qed.

(** A body with a lone surrogate, on a file that holds two records: the
    create is answered 500, the file is left corrupt, and the listing that
    follows is answered 500 as well. *)
Example lone_surrogate_scenario :
  let requests := [request_of (POST_users mallory); request_of GET_users] in
  map (fun x => (status x.2, content x.2))
    (serve "secret" requests (world_of (Some (Holds two_users)))).1
  = [(500, Text "Internal Server Error"); (500, Text "Internal Server Error")]
  /\ data_file (disk (serve "secret" requests
                        (world_of (Some (Holds two_users)))).2)
     = Some Corrupt.
Proof. split; reflexivity. Qed.

(** C3, counterexample: [GET /admin/secret] without a key is answered 401
    and that response has no [X-Process-Time] header; a create whose body
    carries a lone surrogate is answered 500 and that response has none
    either.  So not every response carries one. *)
Lemma timing_header_missing :
  (status (app "secret" (request_of GET_admin_secret) (world_of None)).1 = 401
   /\ resp_headers (app "secret" (request_of GET_admin_secret) (world_of None)).1
        !! "X-Process-Time" = None)
  /\ (status (app "secret" (request_of (POST_users mallory)) (world_of None)).1
      = 500
      /\ resp_headers (app "secret" (request_of (POST_users mallory))
                         (world_of None)).1
           !! "X-Process-Time" = None)
  /\ ~ (forall API_KEY request w,
          exists v,
            resp_headers (app API_KEY request w).1 !! "X-Process-Time" = Some v
            /\ matches_process_time v = true).
Proof.
  assert (resp_headers (app "secret" (request_of GET_admin_secret) (world_of None)).1
            !! "X-Process-Time" = None) as Hnone by reflexivity.
  split; [split; [reflexivity | exact Hnone]|].
  split; [split; reflexivity|].
  intros H.
  destruct (H "secret" (request_of GET_admin_secret) (world_of None))
    as (v & Hv & _).
  rewrite Hnone in Hv. discriminate.
Qed.

(** C1 on sample data: a create on a document whose counter is 3, and a run
    with a delete between two creates. *)
Lemma create_assigns_next_id_witness :
  route (request_of (POST_users bob)) = POST_users bob
  /\ status (app "secret" (request_of (POST_users bob))
               (world_of (Some (Holds two_users)))).1 = 201
  /\ next_id (loaded (disk (world_of (Some (Holds two_users))))) = Some 3
  /\ content (app "secret" (request_of (POST_users bob))
                (world_of (Some (Holds two_users)))).1
     = Json (user_json {| id := 3; fields := bob' |})
  /\ next_id (loaded (disk (app "secret" (request_of (POST_users bob))
                              (world_of (Some (Holds two_users)))).2))
     = Some 4
  /\ StronglySorted Z.lt
       (assigned_ids
          (serve "secret"
             [request_of (POST_users alice); request_of (DELETE_user 1);
              request_of (POST_users bob)]
             (world_of None)).1).
Proof.
  split; [reflexivity|]. split; [reflexivity|]. split; [reflexivity|].
  destruct (create_assigns_next_id "secret" (request_of (POST_users bob)) bob
              (world_of (Some (Holds two_users))) 3 eq_refl eq_refl eq_refl)
    as [((f & Hf & Hc) & _ & _ & Hn) Hsorted].
  injection Hf as <-.
  split; [exact Hc|]. split; [exact Hn|]. apply Hsorted.
Defined.

(** C2 on sample data: two creates, a delete and an update from the absent
    file. *)
Lemma store_invariant_witness :
  readable (disk (world_of None))
  /\ loaded (disk (world_of None)) = default_document
  /\ readable (disk (serve "secret"
                       [request_of (POST_users alice);
                        request_of (POST_users bob);
                        request_of (DELETE_user 1);
                        request_of (PUT_user 2 alice)]
                       (world_of None)).2)
  /\ NoDup (ids (loaded (disk (serve "secret"
                                 [request_of (POST_users alice);
                                  request_of (POST_users bob);
                                  request_of (DELETE_user 1);
                                  request_of (PUT_user 2 alice)]
                                 (world_of None)).2)))
  /\ exists n,
       next_id (loaded (disk (serve "secret"
                                [request_of (POST_users alice);
                                 request_of (POST_users bob);
                                 request_of (DELETE_user 1);
                                 request_of (PUT_user 2 alice)]
                                (world_of None)).2)) = Some n
       /\ Forall (fun i => i < n)
            (assigned_ids (serve "secret"
                             [request_of (POST_users alice);
                              request_of (POST_users bob);
                              request_of (DELETE_user 1);
                              request_of (PUT_user 2 alice)]
                             (world_of None)).1)
       /\ Forall (fun i => i < n)
            (ids (loaded (disk (serve "secret"
                                  [request_of (POST_users alice);
                                   request_of (POST_users bob);
                                   request_of (DELETE_user 1);
                                   request_of (PUT_user 2 alice)]
                                  (world_of None)).2))).
Proof.
  assert (readable (disk (world_of None))) as H0 by (vm_compute; discriminate).
  assert (readable (disk (serve "secret"
                            [request_of (POST_users alice);
                             request_of (POST_users bob);
                             request_of (DELETE_user 1);
                             request_of (PUT_user 2 alice)]
                            (world_of None)).2)) as H1
    by (vm_compute; discriminate).
  split; [exact H0|]. split; [reflexivity|]. split; [exact H1|].
  apply (store_invariant "secret" _ (world_of None) H0 eq_refl H1).
Defined.

(** C5 on sample data: no record of [two_users] has id 7. *)
Lemma update_unknown_id_witness :
  route (request_of (PUT_user 7 bob)) = PUT_user 7 bob
  /\ data_file (disk (world_of (Some (Holds two_users)))) = Some (Holds two_users)
  /\ Forall (fun u => id u <> 7) (users two_users)
  /\ rejected "secret" (request_of (PUT_user 7 bob)) = false
  /\ status (app "secret" (request_of (PUT_user 7 bob))
               (world_of (Some (Holds two_users)))).1
     = 404
  /\ disk (app "secret" (request_of (PUT_user 7 bob))
             (world_of (Some (Holds two_users)))).2
     = disk (world_of (Some (Holds two_users))).
Proof.
  assert (Forall (fun u => id u <> 7) (users two_users)) as Hnone
    by (repeat constructor; discriminate).
  split; [reflexivity|]. split; [reflexivity|]. split; [exact Hnone|].
  split; [reflexivity|].
  destruct (update_unknown_id "secret" (request_of (PUT_user 7 bob)) 7 bob
              (world_of (Some (Holds two_users))) two_users eq_refl eq_refl Hnone)
    as (_ & Hs & Hd).
  split; [exact (proj1 (Hs eq_refl)) | exact Hd].
Defined.



(** Outside the data model, on a document whose ids are not distinct, the
    lookup after a delete can still succeed.  [twins] is what a create
    leaves on the malformed document [no_counter]; two of its records carry
    id 1: [DELETE /users/1] answers 204 and removes the first, and the
    [GET /users/1] that follows answers 200 with the second. *)
Remark lookup_after_delete_with_duplicate_ids :
  data_file (disk (app "secret" (request_of (POST_users bob))
                     (world_of (Some (Holds no_counter)))).2)
  = Some (Holds twins)
  /\ status (app "secret" (request_of (DELETE_user 1))
               (world_of (Some (Holds twins)))).1
     = 204
  /\ status (app "secret" (request_of (GET_user 1))
               (app "secret" (request_of (DELETE_user 1))
                  (world_of (Some (Holds twins)))).2).1
     = 200
  /\ content (app "secret" (request_of (GET_user 1))
                (app "secret" (request_of (DELETE_user 1))
                   (world_of (Some (Holds twins)))).2).1
     = Json (user_json {| id := 1; fields := bob' |}).
Proof. repeat split; reflexivity. Qed.

(** C7 on sample data: delete the record with id 1 of [two_users], then
    look it up. *)
Lemma delete_then_get_witness :
  route (request_of (DELETE_user 1)) = DELETE_user 1
  /\ data_file (disk (world_of (Some (Holds two_users)))) = Some (Holds two_users)
  /\ rejected "secret" (request_of (DELETE_user 1)) = false
  /\ Exists (has_id 1) (users two_users)
  /\ NoDup (ids two_users)
  /\ route (request_of (GET_user 1)) = GET_user 1
  /\ rejected "secret" (request_of (GET_user 1)) = false
  /\ status (app "secret" (request_of (DELETE_user 1))
               (world_of (Some (Holds two_users)))).1
     = 204
  /\ status (app "secret" (request_of (GET_user 1))
               (app "secret" (request_of (DELETE_user 1))
                  (world_of (Some (Holds two_users)))).2).1
     = 404.
Proof.
  assert (Exists (has_id 1) (users two_users)) as Hsome
    by (apply Exists_cons_hd; reflexivity).
  assert (NoDup (ids two_users)) as Hnd
    by (apply NoDup_cons; split;
          [intros H%list_elem_of_singleton; discriminate | apply NoDup_singleton]).
  split; [reflexivity|]. split; [reflexivity|]. split; [reflexivity|].
  split; [exact Hsome|]. split; [exact Hnd|]. split; [reflexivity|].
  split; [reflexivity|].
  destruct (proj1 (delete_then_get "secret" (request_of (DELETE_user 1)) 1
                     (world_of (Some (Holds two_users))) two_users
                     eq_refl eq_refl eq_refl) Hsome)
    as (i & u & _ & _ & Hs & _ & _ & _ & Hget).
  split; [exact Hs|].
  exact (proj1 (Hget Hnd (request_of (GET_user 1)) eq_refl eq_refl)).
Defined.

(** C8 on sample data: an absent file and a file that exists. *)
Lemma ensure_idempotent_witness :
  data_file {| data_file := None; writes := 0 |} = None
  /\ is_Some (data_file {| data_file := Some (Holds two_users); writes := 4 |})
  /\ (_ensure_db ;; _ensure_db)%py {| data_file := None; writes := 0 |}
     = _ensure_db {| data_file := None; writes := 0 |}
  /\ load_db {| data_file := None; writes := 0 |}
     = (Return default_document,
        {| data_file := Some (Holds default_document); writes := 1 |})
  /\ _ensure_db {| data_file := Some (Holds two_users); writes := 4 |}
     = (Return tt, {| data_file := Some (Holds two_users); writes := 4 |}).
Proof.
  assert (is_Some (data_file {| data_file := Some (Holds two_users);
                                writes := 4 |}))
    as Hsome by (exists (Holds two_users); reflexivity).
  split; [reflexivity|]. split; [exact Hsome|].
  split; [exact (proj1 (ensure_idempotent {| data_file := None; writes := 0 |}))|].
  split.
  - exact (proj2 (proj1 (proj2 (proj2
             (ensure_idempotent {| data_file := None; writes := 0 |}))) eq_refl)).
  - exact (proj2 (proj2 (proj2
             (ensure_idempotent {| data_file := Some (Holds two_users);
                                   writes := 4 |})))
             Hsome).
Defined.

(** C9 on sample data: [no_counter] already has a record with id 1. *)
Lemma create_without_next_id_witness :
  route (request_of (POST_users bob)) = POST_users bob
  /\ data_file (disk (world_of (Some (Holds no_counter)))) = Some (Holds no_counter)
  /\ next_id no_counter = None
  /\ encode_fields bob = Some bob'
  /\ rejected "secret" (request_of (POST_users bob)) = false
  /\ Exists (has_id 1) (users no_counter)
  /\ content (app "secret" (request_of (POST_users bob))
                (world_of (Some (Holds no_counter)))).1
     = Json (user_json {| id := 1; fields := bob' |})
  /\ ~ NoDup (ids (loaded (disk (app "secret" (request_of (POST_users bob))
                                   (world_of (Some (Holds no_counter)))).2))).
Proof.
  assert (Exists (has_id 1) (users no_counter)) as Hsome
    by (apply Exists_cons_hd; reflexivity).
  split; [reflexivity|]. split; [reflexivity|]. split; [reflexivity|].
  split; [reflexivity|]. split; [reflexivity|]. split; [exact Hsome|].
  destruct (create_without_next_id "secret" (request_of (POST_users bob)) bob bob'
              (world_of (Some (Holds no_counter))) no_counter
              eq_refl eq_refl eq_refl eq_refl)
    as (_ & Happ).
  destruct (Happ eq_refl) as (_ & Hc & _ & Hdup).
  split; [exact Hc | exact (Hdup Hsome)].
Defined.

(** C10 on sample data: no record of [two_users] has id 7. *)
Lemma delete_unknown_id_witness :
  route (request_of (DELETE_user 7)) = DELETE_user 7
  /\ readable (disk (world_of (Some (Holds two_users))))
  /\ Forall (fun u => id u <> 7)
       (users (loaded (disk (world_of (Some (Holds two_users))))))
  /\ rejected "secret" (request_of (DELETE_user 7)) = false
  /\ is_Some (data_file (disk (world_of (Some (Holds two_users)))))
  /\ status (app "secret" (request_of (DELETE_user 7))
               (world_of (Some (Holds two_users)))).1
     = 404
  /\ disk (app "secret" (request_of (DELETE_user 7))
             (world_of (Some (Holds two_users)))).2
     = disk (world_of (Some (Holds two_users))).
Proof.
  assert (readable (disk (world_of (Some (Holds two_users))))) as H
    by (vm_compute; discriminate).
  assert (Forall (fun u => id u <> 7)
            (users (loaded (disk (world_of (Some (Holds two_users)))))))
    as Hnone by (repeat constructor; discriminate).
  assert (is_Some (data_file (disk (world_of (Some (Holds two_users))))))
    as Hfile by (exists (Holds two_users); reflexivity).
  split; [reflexivity|]. split; [exact H|]. split; [exact Hnone|].
  split; [reflexivity|]. split; [exact Hfile|].
  destruct (delete_unknown_id "secret" (request_of (DELETE_user 7)) 7
              (world_of (Some (Holds two_users))) eq_refl H Hnone)
    as (_ & Hs & _ & Hd).
  split; [exact (proj1 (Hs eq_refl)) | exact (proj1 (Hd Hfile))].
Defined.

(** ** Further properties of the handlers and of the stack *)

Section Handlers.

Variable API_KEY : string.

Implicit Types (request : Request) (w : World) (s : Disk) (d : Document string).

(** A request that reaches the router leaves the disk as the handler left
    it, whether the handler returned or raised. *)
Lemma app_disk_routed request w :
  rejected API_KEY request = false ->
  preflighted request = false ->
  disk (app API_KEY request w).2 = (answer request (disk w)).2.
Proof.
  intros Hr Hp. rewrite app_eq, Hr, Hp.
  destruct (answer request (disk w)).1; reflexivity.
Qed.

(** The requests that are not resolved to a CRUD handler leave the disk
    alone. *)
Lemma app_other request w :
  crud request = false -> disk (app API_KEY request w).2 = disk w.
Proof.
  intros H. destruct (app_disk API_KEY request w) as [-> | ->]; [reflexivity|].
  destruct (answer_other request (disk w) H) as [r ->]. reflexivity.
Qed.

(** An update through the stack that is answered 200. *)
Lemma app_updated request user_id user w :
  route request = PUT_user user_id user ->
  status (app API_KEY request w).1 = 200 ->
  rejected API_KEY request = false
  /\ readable (disk w)
  /\ exists i old f,
       list_find (has_id user_id) (users (file_document (disk w))) = Some (i, old)
       /\ encode_fields user = Some f
       /\ content (app API_KEY request w).1
          = Json (user_json {| id := user_id; fields := f |})
       /\ disk (app API_KEY request w).2
          = {| data_file :=
                 Some (Holds {| users := <[i := {| id := user_id; fields := f |}]>
                                           (users (file_document (disk w)));
                                next_id := next_id (file_document (disk w)) |});
               writes := S (writes (_ensure_db (disk w)).2) |}.
Proof.
  intros E Hs. pose proof (crud_PUT _ _ _ E) as Hc.
  destruct (rejected API_KEY request) eqn:Hr.
  { rewrite (app_rejected_eq API_KEY request w Hr) in Hs. discriminate. }
  destruct (readable_dec (disk w)) as [H|H].
  2: { rewrite (app_crud_faulted API_KEY request w _ _ Hc Hr
                  (answer_corrupt _ _ Hc H)) in Hs. discriminate. }
  pose proof (answer_update request user_id user (disk w) E H) as Ha.
  split; [reflexivity|]. split; [exact H|].
  destruct (list_find _ _) as [[i old]|].
  - destruct (encode_fields user) as [f|].
    + destruct (app_crud API_KEY request w _ _ Hc Hr Ha) as (_ & Hcont & Hd).
      exists i, old, f. repeat split; assumption.
    + rewrite (app_crud_faulted API_KEY request w _ _ Hc Hr Ha) in Hs.
      discriminate.
  - destruct (app_crud API_KEY request w _ _ Hc Hr Ha) as (Hs' & _).
    rewrite Hs' in Hs. discriminate.
Qed.

(** X2. A [GET /users/{id}] with the id that a [POST /users] has just
    assigned answers 200 with the submitted fields and that id, provided no
    record carried the id before (the scan returns the first match). *)
Theorem get_after_create request request' user n w :
  route request = POST_users user ->
  assigned_id (request, (app API_KEY request w).1) = Some n ->
  route request' = GET_user n ->
  rejected API_KEY request' = false ->
  Forall (fun u => id u <> n) (users (loaded (disk w))) ->
  exists f,
    encode_fields user = Some f
    /\ status (app API_KEY request' (app API_KEY request w).2).1 = 200
    /\ content (app API_KEY request' (app API_KEY request w).2).1
       = Json (user_json {| id := n; fields := f |})
    /\ loaded (disk (app API_KEY request' (app API_KEY request w).2).2)
       = loaded (disk (app API_KEY request w).2).
Proof.
  intros E Hn E' Hr' Hfresh. apply users_loaded_none in Hfresh.
  pose proof (app_counter API_KEY request w) as Hcount. rewrite Hn in Hcount.
  destruct Hcount as (-> & _ & _).
  destruct (assigned_created API_KEY request w _ Hn) as (user0 & E0 & Hs).
  destruct (app_created API_KEY request user w E Hs) as (_ & H & f & Hf & _ & Hd).
  exists f. split; [exact Hf|].
  set (w1 := (app API_KEY request w).2) in *.
  assert (data_file (disk w1)
          = Some (Holds {| users := users (file_document (disk w))
                                    ++ [{| id := upcoming_id (disk w);
                                           fields := f |}];
                           next_id := Some (upcoming_id (disk w) + 1) |}))
    as Hd1 by (rewrite Hd; reflexivity).
  pose proof (answer_get request' _ (disk w1) E' (readable_holds _ _ Hd1)) as Ha.
  rewrite (file_document_holds _ _ Hd1) in Ha. simpl in Ha.
  rewrite (find_after_append _ f _ Hfresh), (ensure_present _ _ Hd1) in Ha.
  destruct (app_crud API_KEY request' w1 _ _ (crud_GET _ _ E') Hr' Ha)
    as (Hs' & Hc' & Hk').
  rewrite Hs', Hc', Hk'. repeat split; reflexivity.
Qed.

(** X3. [GET /users] on a file that can be read answers 200 with the
    records of the document in store order and leaves the document as it
    is; when the file exists the disk is untouched. *)
Theorem list_users_spec request w :
  route request = GET_users ->
  readable (disk w) ->
  (rejected API_KEY request = false ->
   status (app API_KEY request w).1 = 200
   /\ content (app API_KEY request w).1
      = Json (JArr (map user_json (users (file_document (disk w))))))
  /\ list_users (disk w) = (Return (users (loaded (disk w))), (load_db (disk w)).2)
  /\ loaded (disk (app API_KEY request w).2) = loaded (disk w)
  /\ (is_Some (data_file (disk w)) -> disk (app API_KEY request w).2 = disk w).
Proof.
  intros E H.
  pose proof (answer_list request (disk w) E H) as Ha.
  assert (disk (app API_KEY request w).2 = disk w
          \/ disk (app API_KEY request w).2 = (_ensure_db (disk w)).2) as Hk.
  { destruct (app_disk API_KEY request w) as [Hk|Hk];
      [left; exact Hk | right; rewrite Hk, Ha; reflexivity]. }
  split; [|split; [|split]].
  - intros Hr.
    destruct (app_crud API_KEY request w _ _ (crud_LIST _ E) Hr Ha) as (Hs & Hc & _).
    rewrite Hs, Hc. split; reflexivity.
  - rewrite (list_users_eq (disk w) H), (load_db_eq (disk w) H). reflexivity.
  - destruct Hk as [-> | ->]; [reflexivity|].
    unfold loaded. rewrite file_document_ensure. reflexivity.
  - intros [c Hc]. rewrite (ensure_present _ _ Hc) in Hk.
    destruct Hk as [-> | ->]; reflexivity.
Qed.

(** X4. After a [POST /users] that was answered 201, [GET /users] lists the
    records that were there before, in the same order, followed by the new
    record. *)
Theorem list_after_create request request' user w :
  route request = POST_users user ->
  status (app API_KEY request w).1 = 201 ->
  route request' = GET_users ->
  rejected API_KEY request' = false ->
  exists f,
    encode_fields user = Some f
    /\ status (app API_KEY request' (app API_KEY request w).2).1 = 200
    /\ content (app API_KEY request' (app API_KEY request w).2).1
       = Json (JArr (map user_json
                       (users (file_document (disk w))
                        ++ [{| id := upcoming_id (disk w); fields := f |}]))).
Proof.
  intros E Hs E' Hr'.
  destruct (app_created API_KEY request user w E Hs) as (_ & H & f & Hf & _ & Hd).
  exists f. split; [exact Hf|].
  set (w1 := (app API_KEY request w).2) in *.
  assert (data_file (disk w1)
          = Some (Holds {| users := users (file_document (disk w))
                                    ++ [{| id := upcoming_id (disk w);
                                           fields := f |}];
                           next_id := Some (upcoming_id (disk w) + 1) |}))
    as Hd1 by (rewrite Hd; reflexivity).
  pose proof (answer_list request' (disk w1) E' (readable_holds _ _ Hd1)) as Ha.
  rewrite (file_document_holds _ _ Hd1) in Ha.
  destruct (app_crud API_KEY request' w1 _ _ (crud_LIST _ E') Hr' Ha)
    as (Hs' & Hc' & _).
  rewrite Hs', Hc'. split; reflexivity.
Qed.

(** X5. [GET /users/{id}] on a file that can be read answers 200 with the
    first record that carries the id, and 404 with
    [{"detail": "User not found"}] when none does; either way the document
    stays as it is. *)
Theorem get_user_spec request user_id w :
  route request = GET_user user_id ->
  readable (disk w) ->
  (Exists (has_id user_id) (users (file_document (disk w))) ->
   exists i u,
     users (file_document (disk w)) !! i = Some u
     /\ id u = user_id
     /\ (forall j y, users (file_document (disk w)) !! j = Some y -> (j < i)%nat ->
                     id y <> user_id)
     /\ get_user user_id (disk w) = (Return (decode_user u), (load_db (disk w)).2)
     /\ (rejected API_KEY request = false ->
         status (app API_KEY request w).1 = 200
         /\ content (app API_KEY request w).1 = Json (user_json u)))
  /\ (Forall (fun u => id u <> user_id) (users (file_document (disk w))) ->
      get_user user_id (disk w)
      = (Raise (HTTPException 404 "User not found"), (load_db (disk w)).2)
      /\ (rejected API_KEY request = false ->
          status (app API_KEY request w).1 = 404
          /\ content (app API_KEY request w).1
             = Json (JObj [("detail", JStr "User not found")])))
  /\ loaded (disk (app API_KEY request w).2) = loaded (disk w).
Proof.
  intros E H.
  pose proof (answer_get request user_id (disk w) E H) as Ha.
  rewrite (get_user_eq user_id (disk w) H), (load_db_eq (disk w) H).
  split; [|split].
  - intros Hsome.
    destruct (find_id_Exists _ _ Hsome) as (i & u & Hfind).
    destruct (find_id_Some _ _ _ _ Hfind) as (Hi & Hid & Hbefore).
    exists i, u. rewrite Hfind in *.
    split; [exact Hi|]. split; [exact Hid|]. split; [exact Hbefore|].
    split; [reflexivity|]. intros Hr.
    destruct (app_crud API_KEY request w _ _ (crud_GET _ _ E) Hr Ha) as (Hs & Hc & _).
    rewrite Hs, Hc. split; reflexivity.
  - intros Hnone. apply find_id_None in Hnone. rewrite Hnone in *.
    split; [reflexivity|]. intros Hr.
    destruct (app_crud API_KEY request w _ _ (crud_GET _ _ E) Hr Ha) as (Hs & Hc & _).
    rewrite Hs, Hc. split; reflexivity.
  - destruct (app_disk API_KEY request w) as [Hk|Hk]; rewrite Hk; [reflexivity|].
    rewrite Ha. unfold loaded.
    destruct (list_find _ _) as [[i u]|]; simpl;
      rewrite file_document_ensure; reflexivity.
Qed.

(** X6. After a [PUT /users/{id}] that was answered 200, a
    [GET /users/{id}] answers 200 with that id and the submitted fields. *)
Theorem get_after_update request request' user_id user w :
  route request = PUT_user user_id user ->
  status (app API_KEY request w).1 = 200 ->
  route request' = GET_user user_id ->
  rejected API_KEY request' = false ->
  exists f,
    encode_fields user = Some f
    /\ status (app API_KEY request' (app API_KEY request w).2).1 = 200
    /\ content (app API_KEY request' (app API_KEY request w).2).1
       = Json (user_json {| id := user_id; fields := f |}).
Proof.
  intros E Hs E' Hr'.
  destruct (app_updated request user_id user w E Hs)
    as (_ & H & i & old & f & Hfind & Hf & _ & Hd).
  exists f. split; [exact Hf|].
  set (w1 := (app API_KEY request w).2) in *.
  assert (data_file (disk w1)
          = Some (Holds {| users := <[i := {| id := user_id; fields := f |}]>
                                      (users (file_document (disk w)));
                           next_id := next_id (file_document (disk w)) |}))
    as Hd1 by (rewrite Hd; reflexivity).
  pose proof (answer_get request' _ (disk w1) E' (readable_holds _ _ Hd1)) as Ha.
  rewrite (file_document_holds _ _ Hd1) in Ha. simpl in Ha.
  rewrite (find_after_insert _ f _ _ _ Hfind) in Ha.
  destruct (app_crud API_KEY request' w1 _ _ (crud_GET _ _ E') Hr' Ha)
    as (Hs' & Hc' & _).
  rewrite Hs', Hc'. split; reflexivity.
Qed.

(** X7. A [PUT /users/{id}] that leaves a file that can be read, whether
    the id is found or not, leaves the sequence of ids, the number of
    records and [next_id] as they were. *)
Theorem update_keeps_ids request user_id user w :
  route request = PUT_user user_id user ->
  readable (disk (app API_KEY request w).2) ->
  ids (loaded (disk (app API_KEY request w).2)) = ids (loaded (disk w))
  /\ length (users (loaded (disk (app API_KEY request w).2)))
     = length (users (loaded (disk w)))
  /\ next_id (loaded (disk (app API_KEY request w).2)) = next_id (loaded (disk w)).
Proof.
  intros E Hr. pose proof (app_readable API_KEY request w Hr) as H.
  assert (forall s, length (users (loaded s)) = length (users (file_document s)))
    as Hlen by (intros s; unfold loaded; simpl; apply length_fmap).
  rewrite !ids_loaded, !Hlen, !next_id_loaded.
  destruct (app_file API_KEY request w H) as [Hd|Hf];
    [rewrite Hd; repeat split; reflexivity|].
  rewrite E in Hf. unfold content_after in Hf. simpl in Hf.
  destruct (list_find _ _) as [[i old]|] eqn:Hfind.
  - destruct (encode_fields user) as [f|].
    + rewrite (file_document_holds _ _ Hf).
      destruct (find_id_Some _ _ _ _ Hfind) as (Hi & Hid & _).
      rewrite (ids_inserted _ _ _ _ _ Hi Hid). simpl.
      split; [reflexivity|]. split; [apply length_insert | reflexivity].
    + unfold readable in Hr. rewrite Hf in Hr. contradiction.
  - rewrite (file_document_holds _ _ Hf). repeat split; reflexivity.
Qed.

(** X8. The same [PUT /users/{id}] sent twice leaves the file that it
    leaves when sent once. *)
Theorem update_idempotent request user_id user w :
  route request = PUT_user user_id user ->
  data_file (disk (app API_KEY request (app API_KEY request w).2).2)
  = data_file (disk (app API_KEY request w).2)
  /\ loaded (disk (app API_KEY request (app API_KEY request w).2).2)
     = loaded (disk (app API_KEY request w).2).
Proof.
  intros E.
  assert (data_file (disk (app API_KEY request (app API_KEY request w).2).2)
          = data_file (disk (app API_KEY request w).2)) as Hgoal.
  2: { split; [exact Hgoal|]. unfold loaded, file_document. rewrite Hgoal.
       reflexivity. }
  pose proof (crud_PUT _ _ _ E) as Hc.
  pose proof (crud_not_preflighted _ Hc) as Hp.
  destruct (rejected API_KEY request) eqn:Hr.
  { rewrite !(app_rejected_eq API_KEY request _ Hr). reflexivity. }
  rewrite (app_disk_routed request _ Hr Hp).
  set (w1 := (app API_KEY request w).2).
  assert (disk w1 = (answer request (disk w)).2) as Hd1
    by apply (app_disk_routed request w Hr Hp).
  destruct (readable_dec (disk w)) as [H|H].
  2: { rewrite (answer_corrupt _ _ Hc H) in Hd1. simpl in Hd1.
       rewrite Hd1, (answer_corrupt _ _ Hc H). reflexivity. }
  rewrite (answer_update request user_id user (disk w) E H) in Hd1.
  destruct (list_find _ _) as [[i old]|] eqn:Hfind.
  - destruct (encode_fields user) as [f|] eqn:Hf; simpl in Hd1.
    + assert (data_file (disk w1)
              = Some (Holds {| users := <[i := {| id := user_id; fields := f |}]>
                                          (users (file_document (disk w)));
                               next_id := next_id (file_document (disk w)) |}))
        as Hh by (rewrite Hd1; reflexivity).
      rewrite (answer_update request user_id user (disk w1) E
                 (readable_holds _ _ Hh)).
      rewrite (file_document_holds _ _ Hh). simpl.
      rewrite (find_after_insert _ f _ _ _ Hfind), Hf. simpl.
      rewrite list_insert_insert_eq. symmetry. exact Hh.
    + assert (data_file (disk w1) = Some Corrupt) as Hh
        by (rewrite Hd1; reflexivity).
      rewrite (answer_corrupt _ _ Hc Hh). simpl. reflexivity.
  - simpl in Hd1.
    assert (readable (disk w1)) as H1 by (rewrite Hd1; apply readable_ensure, H).
    rewrite (answer_update request user_id user (disk w1) E H1).
    assert (file_document (disk w1) = file_document (disk w)) as ->
      by (rewrite Hd1; apply file_document_ensure).
    rewrite Hfind. simpl. rewrite Hd1.
    rewrite (ensure_loaded _ (readable_ensure _ H)), (ensure_loaded _ H).
    rewrite file_document_ensure. reflexivity.
Qed.

(** X9. On a document that satisfies the store invariant, the id that a
    [POST /users] is given after a [DELETE /users/{id}] is above the
    deleted one and above every id that was in the store: deleted ids are
    not reused. *)
Theorem create_after_delete_fresh request request' user_id user n w :
  well_formed (loaded (disk w)) ->
  route request = DELETE_user user_id ->
  Exists (has_id user_id) (users (loaded (disk w))) ->
  route request' = POST_users user ->
  assigned_id (request', (app API_KEY request' (app API_KEY request w).2).1)
  = Some n ->
  next_id (loaded (disk w)) = Some n
  /\ user_id < n
  /\ Forall (fun i => i < n) (ids (loaded (disk w))).
Proof.
  intros (n0 & Hn & _ & Hlt) E Hsome E' Ha.
  destruct (assigned_created API_KEY request' _ _ Ha) as (user0 & E0 & Hs).
  destruct (app_created API_KEY request' user0 _ E0 Hs) as (_ & H1 & _).
  pose proof (app_counter API_KEY request' (app API_KEY request w).2) as Hc'.
  rewrite Ha in Hc'. destruct Hc' as (Hn' & _ & _).
  pose proof (app_counter API_KEY request w) as Hc.
  assert (assigned_id (request, (app API_KEY request w).1) = None) as Hnone
    by (unfold assigned_id; simpl; rewrite E; reflexivity).
  rewrite Hnone in Hc. destruct Hc as [Hc|Hc].
  { unfold readable in H1. contradiction. }
  rewrite Hc in Hn'. unfold upcoming_id in Hn'.
  rewrite next_id_loaded in Hn. rewrite Hn in Hn'. simpl in Hn'. subst n0.
  split; [rewrite next_id_loaded; exact Hn|]. split; [|exact Hlt].
  apply Exists_exists in Hsome as (u & Hu & Hid). unfold has_id in Hid.
  rewrite Forall_forall in Hlt. apply Hlt. rewrite <- Hid. unfold ids.
  change (map id (users (loaded (disk w)))) with (id <$> users (loaded (disk w))).
  apply list_elem_of_fmap_2. exact Hu.
Qed.

Lemma ordered_loaded s : ordered (loaded s) <-> ordered (file_document s).
Proof. unfold ordered. rewrite ids_loaded. reflexivity. Qed.

(** X10. From a document whose records are in strictly increasing order of
    id, all below [next_id] (the initial document is one), any sequence of
    requests that leaves a file that can be read leaves such a document:
    [GET /users] lists the records in the order of their creation. *)
Theorem store_sorted_by_id requests w :
  ordered (loaded (disk w)) ->
  readable (disk (serve API_KEY requests w).2) ->
  StronglySorted Z.lt (ids (loaded (disk (serve API_KEY requests w).2)))
  /\ exists n,
       next_id (loaded (disk (serve API_KEY requests w).2)) = Some n
       /\ Forall (fun i => i < n)
            (ids (loaded (disk (serve API_KEY requests w).2))).
Proof.
  intros Hord Hr. apply ordered_loaded in Hord.
  destruct (serve_invariant API_KEY ordered requests w file_after_ordered Hord Hr)
    as (n & Hn & Hs & Hlt).
  rewrite ids_loaded, next_id_loaded. eauto.
Qed.

(** X11. From the initial document, every id found in the store after a
    sequence of requests is one that a [POST /users] of that sequence
    assigned: no request invents or changes an id. *)
Theorem stored_ids_were_assigned requests w i :
  loaded (disk w) = default_document ->
  readable (disk (serve API_KEY requests w).2) ->
  i ∈ ids (loaded (disk (serve API_KEY requests w).2)) ->
  i ∈ assigned_ids (serve API_KEY requests w).1.
Proof.
  intros H0 Hr H. rewrite ids_loaded in H. apply loaded_default in H0.
  destruct (serve_ids API_KEY requests w i Hr H) as [H1|H1]; [|exact H1].
  rewrite H0 in H1. unfold ids in H1. simpl in H1.
  apply not_elem_of_nil in H1. contradiction.
Qed.

(** X12. The ids assigned along any sequence of requests are consecutive,
    starting at the counter, and when the file can be read at the end the
    counter is that many steps further: requests other than a create never
    move it. *)
Theorem assigned_ids_consecutive requests w :
  assigned_ids (serve API_KEY requests w).1
  = seqZ (upcoming_id (disk w))
      (Z.of_nat (length (assigned_ids (serve API_KEY requests w).1)))
  /\ (readable (disk (serve API_KEY requests w).2) ->
      upcoming_id (disk (serve API_KEY requests w).2)
      = upcoming_id (disk w)
        + Z.of_nat (length (assigned_ids (serve API_KEY requests w).1))).
Proof. apply serve_consecutive. Qed.

Lemma mutates_found {T} user_id (l : list (UserOut T)) i u :
  list_find (has_id user_id) l = Some (i, u) ->
  bool_decide (user_id ∈ map id l) = true.
Proof.
  intros Hfind. apply bool_decide_eq_true_2.
  destruct (decide (user_id ∈ map id l)) as [Hin|Hout]; [exact Hin|].
  apply find_id_elem in Hout. congruence.
Qed.

Lemma mutates_not_found {T} user_id (l : list (UserOut T)) :
  list_find (has_id user_id) l = None ->
  bool_decide (user_id ∈ map id l) = false.
Proof. intros Hfind. apply bool_decide_eq_false_2, find_id_elem, Hfind. Qed.

(** X13. When the backing file holds a document, a request that the guard
    lets through opens the file for writing exactly once if it is a create,
    or an update or delete whose id is in the document, and not at all
    otherwise; the file stays in existence. *)
Theorem writes_once_when_mutating request w d :
  data_file (disk w) = Some (Holds d) ->
  rejected API_KEY request = false ->
  writes (disk (app API_KEY request w).2)
  = (writes (disk w) + if mutates (route request) d then 1 else 0)%nat
  /\ is_Some (data_file (disk (app API_KEY request w).2)).
Proof.
  intros Hd Hr. pose proof (ensure_present _ _ Hd) as He.
  pose proof (readable_holds _ _ Hd) as H.
  pose proof (file_document_holds _ _ Hd) as Hdoc.
  destruct (crud request) eqn:Hcrud.
  - rewrite (app_disk_routed request w Hr (crud_not_preflighted _ Hcrud)).
    unfold crud in Hcrud. destruct (route request) eqn:E; try discriminate.
    + rewrite (answer_list _ _ E H), He. simpl. split; [lia | eauto].
    + rewrite (answer_get _ _ _ E H), He.
      destruct (list_find _ _) as [[i u]|]; simpl; split; (lia || eauto).
    + rewrite (answer_create _ _ _ E H), He.
      destruct (encode_fields user); simpl; split; (lia || eauto).
    + rewrite (answer_update _ _ _ _ E H), He, Hdoc. simpl. unfold ids.
      destruct (list_find _ _) as [[i u]|] eqn:Hfind.
      * rewrite (mutates_found _ _ _ _ Hfind).
        destruct (encode_fields user); simpl; split; (lia || eauto).
      * rewrite (mutates_not_found _ _ Hfind). simpl. split; [lia | eauto].
    + rewrite (answer_delete _ _ _ E H), He, Hdoc. simpl. unfold ids.
      destruct (list_find _ _) as [[i u]|] eqn:Hfind.
      * rewrite (mutates_found _ _ _ _ Hfind). simpl. split; [lia | eauto].
      * rewrite (mutates_not_found _ _ Hfind). simpl. split; [lia | eauto].
  - rewrite (app_other request w Hcrud). unfold crud in Hcrud.
    destruct (route request); try discriminate; simpl; split; (lia || eauto).
Qed.

(** X14. On first access, when the backing file is absent, a request that
    the guard lets through behaves as follows: a read, or an update or
    delete, creates the file with the default document in one write; a
    create whose body can be written writes twice and leaves the new record
    with id 1 and [next_id] 2.  Health, admin and unrouted requests never
    touch the disk, whether the file exists or not. *)
Theorem first_access request w :
  (data_file (disk w) = None ->
   crud request = true ->
   (forall user, route request <> POST_users user) ->
   rejected API_KEY request = false ->
   disk (app API_KEY request w).2
   = {| data_file := Some (Holds default_document);
        writes := S (writes (disk w)) |})
  /\ (data_file (disk w) = None ->
      forall user f,
        route request = POST_users user ->
        rejected API_KEY request = false ->
        encode_fields user = Some f ->
        disk (app API_KEY request w).2
        = {| data_file :=
               Some (Holds {| users := [{| id := 1; fields := f |}];
                              next_id := Some 2 |});
             writes := S (S (writes (disk w))) |})
  /\ (crud request = false -> disk (app API_KEY request w).2 = disk w).
Proof.
  split; [|split; [|apply app_other]].
  - intros Hnone Hcrud Hpost Hr.
    rewrite (app_disk_routed request w Hr (crud_not_preflighted _ Hcrud)).
    pose proof (ensure_absent _ Hnone) as He.
    pose proof (readable_absent _ Hnone) as H.
    assert (file_document (disk w) = default_document) as Hl
      by (unfold file_document; rewrite Hnone; reflexivity).
    unfold crud in Hcrud. destruct (route request) eqn:E; try discriminate.
    + rewrite (answer_list _ _ E H), He. reflexivity.
    + rewrite (answer_get _ _ _ E H), He, Hl. reflexivity.
    + exfalso. exact (Hpost user eq_refl).
    + rewrite (answer_update _ _ _ _ E H), He, Hl. reflexivity.
    + rewrite (answer_delete _ _ _ E H), He, Hl. reflexivity.
  - intros Hnone user f E Hr Hf.
    rewrite (app_disk_routed request w Hr
               (crud_not_preflighted _ (crud_POST _ _ E))).
    rewrite (answer_create _ _ _ E (readable_absent _ Hnone)), Hf.
    rewrite (ensure_absent _ Hnone).
    unfold upcoming_id, file_document. rewrite Hnone. reflexivity.
Qed.

(** X15. A [GET /health] that the guard lets through answers 200 with
    [{"status": "ok"}] whatever the state of the store, corrupt file
    included; the disk is left alone in any case. *)
Theorem health_spec request w :
  route request = GET_health ->
  (rejected API_KEY request = false ->
   status (app API_KEY request w).1 = 200
   /\ content (app API_KEY request w).1 = Json (JObj [("status", JStr "ok")]))
  /\ disk (app API_KEY request w).2 = disk w.
Proof.
  intros E. split.
  - intros Hr.
    assert (preflighted request = false) as Hp.
    { apply handled_not_preflighted. intros m p a. rewrite E. discriminate. }
    assert (answer request (disk w)
            = (Return (JSONResponse 200 (JObj [("status", JStr "ok")])), disk w))
      as Ha by (unfold answer, dispatch; rewrite E; reflexivity).
    destruct (app_answered API_KEY request w _ _ Hr Hp Ha) as (Hs & Hc & _).
    rewrite Hs, Hc. split; reflexivity.
  - apply app_other. unfold crud. rewrite E. reflexivity.
Qed.

(** X18. The guard, in terms of the path of the URL of the request
    ([request.url.path]): under [/admin/], a missing or different
    [X-API-Key] gives 401 with the error body, whatever the rest of the
    stack is and without running it; with the right key
    [GET /admin/secret] answers 200 with the welcome body; on any other
    URL path, and with the right key, the guard hands the request on. *)
Theorem admin_guard_spec request :
  (String.prefix "/admin/" (url_path request) = true ->
   headers request !! "X-API-Key" <> Some API_KEY ->
   (forall call_next w,
      admin_guard API_KEY request call_next w = (Return unauthorized, w))
   /\ (forall w, app API_KEY request w = (unauthorized, w))
   /\ status unauthorized = 401
   /\ content unauthorized
      = Json (JObj [("detail", JStr "Unauthorized (missing/invalid X-API-Key)")]))
  /\ (route request = GET_admin_secret ->
      headers request !! "X-API-Key" = Some API_KEY ->
      forall w,
        status (app API_KEY request w).1 = 200
        /\ content (app API_KEY request w).1
           = Json (JObj [("ok", JBool true); ("msg", JStr "Welcome, admin.")])
        /\ disk (app API_KEY request w).2 = disk w)
  /\ (String.prefix "/admin/" (url_path request) = false ->
      forall call_next, admin_guard API_KEY request call_next = call_next request)
  /\ (headers request !! "X-API-Key" = Some API_KEY ->
      forall call_next, admin_guard API_KEY request call_next = call_next request).
Proof.
  split; [|split; [|split]].
  - intros Hp Hk.
    assert (bool_decide (headers request !! "X-API-Key" <> Some API_KEY) = true)
      as Hb by (apply bool_decide_eq_true; exact Hk).
    split; [|split; [|split; reflexivity]].
    + intros call_next w. unfold admin_guard. rewrite Hp, Hb. reflexivity.
    + intros w. apply app_rejected_eq. unfold rejected. rewrite Hp, Hb. reflexivity.
  - intros E Hk w.
    assert (rejected API_KEY request = false) as Hr.
    { unfold rejected. apply andb_false_iff. right.
      apply bool_decide_eq_false. intros Hne. exact (Hne Hk). }
    assert (preflighted request = false) as Hp.
    { apply handled_not_preflighted. intros m p a. rewrite E. discriminate. }
    assert (answer request (disk w)
            = (Return (JSONResponse 200
                         (JObj [("ok", JBool true);
                                ("msg", JStr "Welcome, admin.")])), disk w))
      as Ha by (unfold answer, dispatch; rewrite E; reflexivity).
    destruct (app_answered API_KEY request w _ _ Hr Hp Ha) as (Hs & Hc & Hd).
    rewrite Hs, Hc, Hd. repeat split; reflexivity.
  - intros Hp call_next. unfold admin_guard. rewrite Hp. reflexivity.
  - intros Hk call_next. unfold admin_guard.
    assert (bool_decide (headers request !! "X-API-Key" <> Some API_KEY) = false)
      as -> by (apply bool_decide_eq_false; intros Hne; exact (Hne Hk)).
    destruct (String.prefix _ _); reflexivity.
Qed.

(** X19. A create, or an update of a record that exists, whose body
    carries a string that cannot be written to the file: [save_db] has
    opened the file for writing, which empties it, when the dump raises.
    The client is answered 500 without [X-Process-Time], no id is
    assigned, and the file is left corrupt: every record is lost. *)
Theorem failed_write_corrupts_store request user w :
  (route request = POST_users user
   \/ exists user_id,
        route request = PUT_user user_id user
        /\ Exists (has_id user_id) (users (file_document (disk w)))) ->
  readable (disk w) ->
  rejected API_KEY request = false ->
  encode_fields user = None ->
  app API_KEY request w
  = (PlainTextResponse 500 "Internal Server Error",
     after_fault w {| data_file := Some Corrupt;
                      writes := S (writes (_ensure_db (disk w)).2) |})
  /\ resp_headers (app API_KEY request w).1 !! "X-Process-Time" = None
  /\ assigned_id (request, (app API_KEY request w).1) = None
  /\ data_file (disk (app API_KEY request w).2) = Some Corrupt.
Proof.
  intros Hroute H Hr Hf.
  assert (app API_KEY request w
          = (PlainTextResponse 500 "Internal Server Error",
             after_fault w {| data_file := Some Corrupt;
                              writes := S (writes (_ensure_db (disk w)).2) |}))
    as Happ.
  { destruct Hroute as [E|(user_id & E & Hsome)].
    - pose proof (answer_create request user (disk w) E H) as Ha.
      rewrite Hf in Ha.
      exact (app_crud_faulted API_KEY request w _ _ (crud_POST _ _ E) Hr Ha).
    - pose proof (answer_update request user_id user (disk w) E H) as Ha.
      destruct (find_id_Exists _ _ Hsome) as (i & u & Hfind).
      rewrite Hfind, Hf in Ha.
      exact (app_crud_faulted API_KEY request w _ _ (crud_PUT _ _ _ E) Hr Ha). }
  rewrite Happ. split; [reflexivity|]. split; [reflexivity|].
  split; [|reflexivity].
  unfold assigned_id. simpl. destruct (route request); reflexivity.
Qed.

(** X20. Nothing repairs a corrupt file: every CRUD request that the guard
    lets through is answered 500, and whatever the sequence of requests,
    the disk stays as it is and no id is assigned. *)
Theorem corrupt_file_is_never_repaired w :
  data_file (disk w) = Some Corrupt ->
  (forall request,
     crud request = true ->
     rejected API_KEY request = false ->
     app API_KEY request w
     = (PlainTextResponse 500 "Internal Server Error", after_fault w (disk w)))
  /\ (forall requests,
        disk (serve API_KEY requests w).2 = disk w
        /\ assigned_ids (serve API_KEY requests w).1 = []).
Proof.
  intros H. split.
  - intros request Hc Hr.
    exact (app_crud_faulted API_KEY request w _ _ Hc Hr (answer_corrupt _ _ Hc H)).
  - intros requests. apply serve_corrupt. exact H.
Qed.

(** X21. A [POST /users] is answered 201 exactly when the guard lets it
    through, the file can be read and the strings of the body can be
    written; the record is then appended at the end of the document. *)
Theorem create_user_spec request user w :
  route request = POST_users user ->
  (status (app API_KEY request w).1 = 201
   <-> rejected API_KEY request = false
       /\ readable (disk w)
       /\ is_Some (encode_fields user))
  /\ (forall f,
        rejected API_KEY request = false ->
        readable (disk w) ->
        encode_fields user = Some f ->
        content (app API_KEY request w).1
        = Json (user_json {| id := upcoming_id (disk w); fields := f |})
        /\ data_file (disk (app API_KEY request w).2)
           = Some (Holds {| users := users (file_document (disk w))
                                     ++ [{| id := upcoming_id (disk w);
                                            fields := f |}];
                            next_id := Some (upcoming_id (disk w) + 1) |})).
Proof.
  intros E.
  assert (forall f,
            rejected API_KEY request = false ->
            readable (disk w) ->
            encode_fields user = Some f ->
            status (app API_KEY request w).1 = 201
            /\ content (app API_KEY request w).1
               = Json (user_json {| id := upcoming_id (disk w); fields := f |})
            /\ data_file (disk (app API_KEY request w).2)
               = Some (Holds {| users := users (file_document (disk w))
                                         ++ [{| id := upcoming_id (disk w);
                                                fields := f |}];
                                next_id := Some (upcoming_id (disk w) + 1) |}))
    as Hok.
  { intros f Hr H Hf.
    pose proof (answer_create request user (disk w) E H) as Ha.
    rewrite Hf in Ha.
    destruct (app_crud API_KEY request w _ _ (crud_POST _ _ E) Hr Ha)
      as (Hs & Hc & Hk).
    rewrite Hs, Hc, Hk. repeat split; reflexivity. }
  split; [split|].
  - intros Hs.
    destruct (app_created API_KEY request user w E Hs) as (Hr & H & f & Hf & _).
    split; [exact Hr|]. split; [exact H|]. exists f. exact Hf.
  - intros (Hr & H & f & Hf). apply (Hok f Hr H Hf).
  - intros f Hr H Hf. apply (Hok f Hr H Hf).
Qed.

End Handlers.

(** ** Further instances on sample data *)

(** X2 on sample data: a create on [two_users], then the lookup of id 3. *)
Lemma get_after_create_witness :
  route (request_of (POST_users bob)) = POST_users bob
  /\ assigned_id (request_of (POST_users bob),
                  (app "secret" (request_of (POST_users bob))
                     (world_of (Some (Holds two_users)))).1) = Some 3
  /\ route (request_of (GET_user 3)) = GET_user 3
  /\ rejected "secret" (request_of (GET_user 3)) = false
  /\ Forall (fun u => id u <> 3)
       (users (loaded (disk (world_of (Some (Holds two_users))))))
  /\ content (app "secret" (request_of (GET_user 3))
                (app "secret" (request_of (POST_users bob))
                   (world_of (Some (Holds two_users)))).2).1
     = Json (user_json {| id := 3; fields := bob' |}).
Proof.
  assert (Forall (fun u => id u <> 3)
            (users (loaded (disk (world_of (Some (Holds two_users)))))))
    as Hfresh by (repeat constructor; discriminate).
  split; [reflexivity|]. split; [reflexivity|]. split; [reflexivity|].
  split; [reflexivity|]. split; [exact Hfresh|].
  destruct (get_after_create "secret" (request_of (POST_users bob))
              (request_of (GET_user 3)) bob 3
              (world_of (Some (Holds two_users)))
              eq_refl eq_refl eq_refl eq_refl Hfresh)
    as (f & Hf & _ & Hc & _).
  injection Hf as <-. exact Hc.
Defined.

(** X3 on sample data: the listing of [two_users]. *)
Lemma list_users_spec_witness :
  route (request_of GET_users) = GET_users
  /\ readable (disk (world_of (Some (Holds two_users))))
  /\ rejected "secret" (request_of GET_users) = false
  /\ is_Some (data_file (disk (world_of (Some (Holds two_users)))))
  /\ content (app "secret" (request_of GET_users)
                (world_of (Some (Holds two_users)))).1
     = Json (JArr (map user_json (users two_users)))
  /\ disk (app "secret" (request_of GET_users)
             (world_of (Some (Holds two_users)))).2
     = disk (world_of (Some (Holds two_users))).
Proof.
  assert (readable (disk (world_of (Some (Holds two_users))))) as H
    by (vm_compute; discriminate).
  assert (is_Some (data_file (disk (world_of (Some (Holds two_users))))))
    as Hfile by (exists (Holds two_users); reflexivity).
  split; [reflexivity|]. split; [exact H|]. split; [reflexivity|].
  split; [exact Hfile|].
  destruct (list_users_spec "secret" (request_of GET_users)
              (world_of (Some (Holds two_users))) eq_refl H)
    as (Happ & _ & _ & Hd).
  split; [exact (proj2 (Happ eq_refl)) | exact (Hd Hfile)].
Defined.

(** X4 on sample data: a create on [two_users], then the listing. *)
Lemma list_after_create_witness :
  route (request_of (POST_users alice)) = POST_users alice
  /\ status (app "secret" (request_of (POST_users alice))
               (world_of (Some (Holds two_users)))).1 = 201
  /\ route (request_of GET_users) = GET_users
  /\ rejected "secret" (request_of GET_users) = false
  /\ content (app "secret" (request_of GET_users)
                (app "secret" (request_of (POST_users alice))
                   (world_of (Some (Holds two_users)))).2).1
     = Json (JArr (map user_json
                     (users two_users ++ [{| id := 3; fields := alice' |}]))).
Proof.
  split; [reflexivity|]. split; [reflexivity|]. split; [reflexivity|].
  split; [reflexivity|].
  destruct (list_after_create "secret" (request_of (POST_users alice))
              (request_of GET_users) alice (world_of (Some (Holds two_users)))
              eq_refl eq_refl eq_refl eq_refl)
    as (f & Hf & _ & Hc).
  injection Hf as <-. exact Hc.
Defined.

(** X5 on sample data: id 2 is in [two_users], id 7 is not. *)
Lemma get_user_spec_witness :
  route (request_of (GET_user 2)) = GET_user 2
  /\ readable (disk (world_of (Some (Holds two_users))))
  /\ Exists (has_id 2)
       (users (file_document (disk (world_of (Some (Holds two_users))))))
  /\ rejected "secret" (request_of (GET_user 2)) = false
  /\ route (request_of (GET_user 7)) = GET_user 7
  /\ Forall (fun u => id u <> 7)
       (users (file_document (disk (world_of (Some (Holds two_users))))))
  /\ rejected "secret" (request_of (GET_user 7)) = false
  /\ (exists i u,
        users (file_document (disk (world_of (Some (Holds two_users))))) !! i
        = Some u
        /\ id u = 2
        /\ content (app "secret" (request_of (GET_user 2))
                      (world_of (Some (Holds two_users)))).1 = Json (user_json u))
  /\ status (app "secret" (request_of (GET_user 7))
               (world_of (Some (Holds two_users)))).1
     = 404.
Proof.
  assert (readable (disk (world_of (Some (Holds two_users))))) as H
    by (vm_compute; discriminate).
  assert (Exists (has_id 2)
            (users (file_document (disk (world_of (Some (Holds two_users)))))))
    as Hsome by (apply Exists_cons_tl, Exists_cons_hd; reflexivity).
  assert (Forall (fun u => id u <> 7)
            (users (file_document (disk (world_of (Some (Holds two_users)))))))
    as Hnone by (repeat constructor; discriminate).
  split; [reflexivity|]. split; [exact H|]. split; [exact Hsome|].
  split; [reflexivity|]. split; [reflexivity|]. split; [exact Hnone|].
  split; [reflexivity|]. split.
  - destruct (proj1 (get_user_spec "secret" (request_of (GET_user 2)) 2
                       (world_of (Some (Holds two_users))) eq_refl H) Hsome)
      as (i & u & Hi & Hid & _ & _ & Happ).
    exists i, u. split; [exact Hi|]. split; [exact Hid|].
    exact (proj2 (Happ eq_refl)).
  - exact (proj1 (proj2 (proj1 (proj2
             (get_user_spec "secret" (request_of (GET_user 7)) 7
                (world_of (Some (Holds two_users))) eq_refl H)) Hnone) eq_refl)).
Defined.

(** X6 on sample data: an update of id 2 in [two_users], then its lookup. *)
Lemma get_after_update_witness :
  route (request_of (PUT_user 2 alice)) = PUT_user 2 alice
  /\ status (app "secret" (request_of (PUT_user 2 alice))
               (world_of (Some (Holds two_users)))).1 = 200
  /\ route (request_of (GET_user 2)) = GET_user 2
  /\ rejected "secret" (request_of (GET_user 2)) = false
  /\ content (app "secret" (request_of (GET_user 2))
                (app "secret" (request_of (PUT_user 2 alice))
                   (world_of (Some (Holds two_users)))).2).1
     = Json (user_json {| id := 2; fields := alice' |}).
Proof.
  split; [reflexivity|]. split; [reflexivity|]. split; [reflexivity|].
  split; [reflexivity|].
  destruct (get_after_update "secret" (request_of (PUT_user 2 alice))
              (request_of (GET_user 2)) 2 alice
              (world_of (Some (Holds two_users)))
              eq_refl eq_refl eq_refl eq_refl)
    as (f & Hf & _ & Hc).
  injection Hf as <-. exact Hc.
Defined.

(** X7 on sample data: an update of id 2 in [two_users]. *)
Lemma update_keeps_ids_witness :
  route (request_of (PUT_user 2 alice)) = PUT_user 2 alice
  /\ readable (disk (app "secret" (request_of (PUT_user 2 alice))
                       (world_of (Some (Holds two_users)))).2)
  /\ ids (loaded (disk (app "secret" (request_of (PUT_user 2 alice))
                          (world_of (Some (Holds two_users)))).2))
     = ids (loaded (disk (world_of (Some (Holds two_users))))).
Proof.
  assert (readable (disk (app "secret" (request_of (PUT_user 2 alice))
                            (world_of (Some (Holds two_users)))).2)) as H
    by (vm_compute; discriminate).
  split; [reflexivity|]. split; [exact H|].
  exact (proj1 (update_keeps_ids "secret" (request_of (PUT_user 2 alice)) 2 alice
                  (world_of (Some (Holds two_users))) eq_refl H)).
Defined.

(** X8 on sample data: the update of id 2 in [two_users], twice. *)
Lemma update_idempotent_witness :
  route (request_of (PUT_user 2 alice)) = PUT_user 2 alice
  /\ data_file (disk (app "secret" (request_of (PUT_user 2 alice))
                        (app "secret" (request_of (PUT_user 2 alice))
                           (world_of (Some (Holds two_users)))).2).2)
     = data_file (disk (app "secret" (request_of (PUT_user 2 alice))
                          (world_of (Some (Holds two_users)))).2).
Proof.
  split; [reflexivity|].
  exact (proj1 (update_idempotent "secret" (request_of (PUT_user 2 alice)) 2 alice
                  (world_of (Some (Holds two_users))) eq_refl)).
Defined.

(** X9 on sample data: delete id 2 of [two_users], then create. *)
Lemma create_after_delete_fresh_witness :
  well_formed (loaded (disk (world_of (Some (Holds two_users)))))
  /\ route (request_of (DELETE_user 2)) = DELETE_user 2
  /\ Exists (has_id 2)
       (users (loaded (disk (world_of (Some (Holds two_users))))))
  /\ route (request_of (POST_users alice)) = POST_users alice
  /\ assigned_id (request_of (POST_users alice),
                  (app "secret" (request_of (POST_users alice))
                     (app "secret" (request_of (DELETE_user 2))
                        (world_of (Some (Holds two_users)))).2).1) = Some 3
  /\ 2 < 3.
Proof.
  assert (well_formed (loaded (disk (world_of (Some (Holds two_users))))))
    as Hwf.
  { exists 3. split; [reflexivity|]. split.
    - apply NoDup_cons; split;
        [intros H%list_elem_of_singleton; discriminate | apply NoDup_singleton].
    - repeat constructor. }
  assert (Exists (has_id 2)
            (users (loaded (disk (world_of (Some (Holds two_users)))))))
    as Hsome by (apply Exists_cons_tl, Exists_cons_hd; reflexivity).
  split; [exact Hwf|]. split; [reflexivity|]. split; [exact Hsome|].
  split; [reflexivity|]. split; [reflexivity|].
  exact (proj1 (proj2
           (create_after_delete_fresh "secret" (request_of (DELETE_user 2))
              (request_of (POST_users alice)) 2 alice 3
              (world_of (Some (Holds two_users)))
              Hwf eq_refl Hsome eq_refl eq_refl))).
Defined.

(** X10 on sample data: from the absent file. *)
Lemma store_sorted_by_id_witness :
  ordered (loaded (disk (world_of None)))
  /\ readable (disk (serve "secret"
                       [request_of (POST_users alice);
                        request_of (POST_users bob);
                        request_of (DELETE_user 1);
                        request_of (POST_users alice)]
                       (world_of None)).2)
  /\ StronglySorted Z.lt
       (ids (loaded (disk (serve "secret"
                             [request_of (POST_users alice);
                              request_of (POST_users bob);
                              request_of (DELETE_user 1);
                              request_of (POST_users alice)]
                             (world_of None)).2))).
Proof.
  assert (ordered (loaded (disk (world_of None)))) as Hord.
  { exists 1. split; [reflexivity|]. split; constructor. }
  assert (readable (disk (serve "secret"
                            [request_of (POST_users alice);
                             request_of (POST_users bob);
                             request_of (DELETE_user 1);
                             request_of (POST_users alice)]
                            (world_of None)).2)) as H
    by (vm_compute; discriminate).
  split; [exact Hord|]. split; [exact H|].
  exact (proj1 (store_sorted_by_id "secret" _ (world_of None) Hord H)).
Defined.

(** X11 on sample data: id 2 after two creates and a delete. *)
Lemma stored_ids_were_assigned_witness :
  loaded (disk (world_of None)) = default_document
  /\ readable (disk (serve "secret"
                       [request_of (POST_users alice);
                        request_of (POST_users bob);
                        request_of (DELETE_user 1)]
                       (world_of None)).2)
  /\ 2 ∈ ids (loaded (disk (serve "secret"
                             [request_of (POST_users alice);
                              request_of (POST_users bob);
                              request_of (DELETE_user 1)]
                             (world_of None)).2))
  /\ 2 ∈ assigned_ids (serve "secret"
                         [request_of (POST_users alice);
                          request_of (POST_users bob);
                          request_of (DELETE_user 1)]
                         (world_of None)).1.
Proof.
  assert (readable (disk (serve "secret"
                            [request_of (POST_users alice);
                             request_of (POST_users bob);
                             request_of (DELETE_user 1)]
                            (world_of None)).2)) as H
    by (vm_compute; discriminate).
  assert (2 ∈ ids (loaded (disk (serve "secret"
                                   [request_of (POST_users alice);
                                    request_of (POST_users bob);
                                    request_of (DELETE_user 1)]
                                   (world_of None)).2))) as Hin
    by apply list_elem_of_here.
  split; [reflexivity|]. split; [exact H|]. split; [exact Hin|].
  exact (stored_ids_were_assigned "secret" _ (world_of None) 2 eq_refl H Hin).
Defined.

(** X12 on sample data: two creates around a delete, from [two_users]. *)
Lemma assigned_ids_consecutive_witness :
  readable (disk (serve "secret"
                    [request_of (POST_users alice);
                     request_of (DELETE_user 1);
                     request_of (POST_users bob)]
                    (world_of (Some (Holds two_users)))).2)
  /\ assigned_ids (serve "secret"
                     [request_of (POST_users alice);
                      request_of (DELETE_user 1);
                      request_of (POST_users bob)]
                     (world_of (Some (Holds two_users)))).1
     = seqZ 3 2
  /\ upcoming_id (disk (serve "secret"
                          [request_of (POST_users alice);
                           request_of (DELETE_user 1);
                           request_of (POST_users bob)]
                          (world_of (Some (Holds two_users)))).2)
     = 3 + 2.
Proof.
  assert (readable (disk (serve "secret"
                            [request_of (POST_users alice);
                             request_of (DELETE_user 1);
                             request_of (POST_users bob)]
                            (world_of (Some (Holds two_users)))).2)) as H
    by (vm_compute; discriminate).
  split; [exact H|].
  destruct (assigned_ids_consecutive "secret"
              [request_of (POST_users alice);
               request_of (DELETE_user 1);
               request_of (POST_users bob)]
              (world_of (Some (Holds two_users)))) as [Hids Hend].
  split; [exact Hids | exact (Hend H)].
Defined.

(** X13 on sample data: a create and a lookup on [two_users]. *)
Lemma writes_once_when_mutating_witness :
  data_file (disk (world_of (Some (Holds two_users)))) = Some (Holds two_users)
  /\ rejected "secret" (request_of (POST_users bob)) = false
  /\ rejected "secret" (request_of (GET_user 1)) = false
  /\ writes (disk (app "secret" (request_of (POST_users bob))
                     (world_of (Some (Holds two_users)))).2) = 1%nat
  /\ writes (disk (app "secret" (request_of (GET_user 1))
                     (world_of (Some (Holds two_users)))).2) = 0%nat.
Proof.
  split; [reflexivity|]. split; [reflexivity|]. split; [reflexivity|]. split.
  - exact (proj1 (writes_once_when_mutating "secret" (request_of (POST_users bob))
                    (world_of (Some (Holds two_users))) two_users
                    eq_refl eq_refl)).
  - exact (proj1 (writes_once_when_mutating "secret" (request_of (GET_user 1))
                    (world_of (Some (Holds two_users))) two_users
                    eq_refl eq_refl)).
Defined.

(** X14 on sample data: a listing, a create and a health check on the
    absent file. *)
Lemma first_access_witness :
  data_file (disk (world_of None)) = None
  /\ crud (request_of GET_users) = true
  /\ (forall user, route (request_of GET_users) <> POST_users user)
  /\ rejected "secret" (request_of GET_users) = false
  /\ route (request_of (POST_users bob)) = POST_users bob
  /\ rejected "secret" (request_of (POST_users bob)) = false
  /\ encode_fields bob = Some bob'
  /\ crud (request_of GET_health) = false
  /\ disk (app "secret" (request_of GET_users) (world_of None)).2
     = {| data_file := Some (Holds default_document); writes := 1 |}
  /\ disk (app "secret" (request_of (POST_users bob)) (world_of None)).2
     = {| data_file := Some (Holds {| users := [{| id := 1; fields := bob' |}];
                                      next_id := Some 2 |});
          writes := 2 |}
  /\ disk (app "secret" (request_of GET_health) (world_of None)).2
     = disk (world_of None).
Proof.
  assert (forall user, route (request_of GET_users) <> POST_users user) as Hget
    by (intros user; discriminate).
  split; [reflexivity|]. split; [reflexivity|]. split; [exact Hget|].
  split; [reflexivity|]. split; [reflexivity|]. split; [reflexivity|].
  split; [reflexivity|]. split; [reflexivity|]. split; [|split].
  - exact (proj1 (first_access "secret" (request_of GET_users) (world_of None))
             eq_refl eq_refl Hget eq_refl).
  - exact (proj1 (proj2 (first_access "secret" (request_of (POST_users bob))
                           (world_of None))) eq_refl bob bob' eq_refl eq_refl
             eq_refl).
  - exact (proj2 (proj2 (first_access "secret" (request_of GET_health)
                           (world_of None))) eq_refl).
Defined.

(** X15 on sample data: a health check with a wrong key in the headers, on
    a corrupt file. *)
Lemma health_spec_witness :
  route (with_key "guess" GET_health) = GET_health
  /\ rejected "secret" (with_key "guess" GET_health) = false
  /\ status (app "secret" (with_key "guess" GET_health)
               (world_of (Some Corrupt))).1 = 200.
Proof.
  split; [reflexivity|]. split; [reflexivity|].
  exact (proj1 (proj1 (health_spec "secret" (with_key "guess" GET_health)
                         (world_of (Some Corrupt)) eq_refl) eq_refl)).
Defined.

(** The guard looks at the path of the rebuilt URL only: a health check
    sent with [Host: a/admin/x?] and without a key is answered 401. *)
Example health_behind_guard :
  route (with_host_path GET_health) = GET_health
  /\ app "secret" (with_host_path GET_health) (world_of None)
     = (unauthorized, world_of None).
Proof. split; reflexivity. Qed.

(** X18 on sample data: a wrong key, the right key, and a URL path outside
    [/admin/]. *)
Lemma admin_guard_spec_witness :
  (String.prefix "/admin/" (url_path (with_key "guess" GET_admin_secret)) = true
   /\ headers (with_key "guess" GET_admin_secret) !! "X-API-Key" <> Some "secret"
   /\ app "secret" (with_key "guess" GET_admin_secret) (world_of None)
      = (unauthorized, world_of None))
  /\ (route (with_key "secret" GET_admin_secret) = GET_admin_secret
      /\ headers (with_key "secret" GET_admin_secret) !! "X-API-Key" = Some "secret"
      /\ status (app "secret" (with_key "secret" GET_admin_secret) (world_of None)).1
         = 200)
  /\ (String.prefix "/admin/" (url_path (request_of GET_health)) = false
      /\ admin_guard "secret" (request_of GET_health) router
         = router (request_of GET_health)).
Proof.
  assert (headers (with_key "guess" GET_admin_secret) !! "X-API-Key" <> Some "secret")
    as Hk by (vm_compute; discriminate).
  assert (headers (with_key "secret" GET_admin_secret) !! "X-API-Key" = Some "secret")
    as Hk' by reflexivity.
  split; [|split].
  - split; [reflexivity|]. split; [exact Hk|].
    apply (proj1 (admin_guard_spec "secret" (with_key "guess" GET_admin_secret))
             eq_refl Hk).
  - split; [reflexivity|]. split; [exact Hk'|].
    apply (proj1 (proj2 (admin_guard_spec "secret" (with_key "secret" GET_admin_secret)))
             eq_refl Hk').
  - split; [reflexivity|].
    apply (proj1 (proj2 (proj2 (admin_guard_spec "secret" (request_of GET_health))))
             eq_refl).
Defined.

(** X19 on sample data: a create with a lone surrogate on [two_users]. *)
Lemma failed_write_corrupts_store_witness :
  route (request_of (POST_users mallory)) = POST_users mallory
  /\ readable (disk (world_of (Some (Holds two_users))))
  /\ rejected "secret" (request_of (POST_users mallory)) = false
  /\ encode_fields mallory = None
  /\ status (app "secret" (request_of (POST_users mallory))
               (world_of (Some (Holds two_users)))).1 = 500
  /\ data_file (disk (app "secret" (request_of (POST_users mallory))
                        (world_of (Some (Holds two_users)))).2)
     = Some Corrupt.
Proof.
  assert (readable (disk (world_of (Some (Holds two_users))))) as H
    by (vm_compute; discriminate).
  split; [reflexivity|]. split; [exact H|]. split; [reflexivity|].
  split; [reflexivity|].
  destruct (failed_write_corrupts_store "secret" (request_of (POST_users mallory))
              mallory (world_of (Some (Holds two_users)))
              (or_introl eq_refl) H eq_refl eq_refl)
    as (Happ & _ & _ & Hd).
  split; [exact (f_equal (fun x => status x.1) Happ) | exact Hd].
Defined.

(** X20 on sample data: a listing and a create on a corrupt file. *)
Lemma corrupt_file_is_never_repaired_witness :
  data_file (disk (world_of (Some Corrupt))) = Some Corrupt
  /\ crud (request_of GET_users) = true
  /\ rejected "secret" (request_of GET_users) = false
  /\ status (app "secret" (request_of GET_users) (world_of (Some Corrupt))).1
     = 500
  /\ disk (serve "secret" [request_of GET_users; request_of (POST_users alice)]
             (world_of (Some Corrupt))).2
     = disk (world_of (Some Corrupt)).
Proof.
  split; [reflexivity|]. split; [reflexivity|]. split; [reflexivity|].
  destruct (corrupt_file_is_never_repaired "secret" (world_of (Some Corrupt))
              eq_refl) as [Hone Hall].
  split.
  - exact (f_equal (fun x => status x.1) (Hone (request_of GET_users) eq_refl eq_refl)).
  - exact (proj1 (Hall [request_of GET_users; request_of (POST_users alice)])).
Defined.

(** X21 on sample data: a create on [two_users]. *)
Lemma create_user_spec_witness :
  route (request_of (POST_users bob)) = POST_users bob
  /\ rejected "secret" (request_of (POST_users bob)) = false
  /\ readable (disk (world_of (Some (Holds two_users))))
  /\ encode_fields bob = Some bob'
  /\ status (app "secret" (request_of (POST_users bob))
               (world_of (Some (Holds two_users)))).1 = 201
  /\ content (app "secret" (request_of (POST_users bob))
                (world_of (Some (Holds two_users)))).1
     = Json (user_json {| id := 3; fields := bob' |}).
Proof.
  assert (readable (disk (world_of (Some (Holds two_users))))) as H
    by (vm_compute; discriminate).
  split; [reflexivity|]. split; [reflexivity|]. split; [exact H|].
  split; [reflexivity|].
  destruct (create_user_spec "secret" (request_of (POST_users bob)) bob
              (world_of (Some (Holds two_users))) eq_refl) as [Hiff Hok].
  split.
  - apply (proj2 Hiff). split; [reflexivity|]. split; [exact H|].
    exists bob'. reflexivity.
  - exact (proj1 (Hok bob' eq_refl H eq_refl)).
Defined.
